(** * ubuntu-raid-cli: the RAID lifecycle manager

    A shallow embedding of [src/ubuntu_raid_cli/raid_manager.py]
    (class [RAIDManager]) and the properties of its lifecycle operations.

    Text is modelled as [string], the sequence of the bytes of its UTF-8
    encoding: a character outside ASCII is the two or three bytes that
    encode it.  Console output ([console.print]) is presentation only and
    is left out of the model. *)

From Stdlib Require Import String Ascii List ZArith Bool Lia DecimalString.
From Stdlib Require Import RelationClasses.
Import ListNotations.
Open Scope string_scope.

Set Implicit Arguments.

(* ================================================================== *)
(** ** Python's string operations, as far as the manager uses them *)
(* ================================================================== *)

Module PyStr.

(** The line feed, ["\n"] in the source. *)
Definition LF : ascii := "010"%char.
Definition nl : string := String LF "".

(** The carriage return. *)
Definition CR : ascii := "013"%char.

(** [s.startswith(p)] *)
Fixpoint startswith (p s : string) : bool :=
  match p, s with
  | EmptyString, _ => true
  | String _ _, EmptyString => false
  | String a p', String b s' => Ascii.eqb a b && startswith p' s'
  end.

(** [needle in hay] *)
Fixpoint contains (needle hay : string) : bool :=
  startswith needle hay
  || match hay with
     | EmptyString => false
     | String _ t => contains needle t
     end.

(** [s.split(sep)] for a separator of one character. *)
Fixpoint split (sep : ascii) (s : string) : list string :=
  match s with
  | EmptyString => [EmptyString]
  | String c t =>
      if Ascii.eqb c sep then EmptyString :: split sep t
      else match split sep t with
           | [] => [String c EmptyString]
           | p :: ps => String c p :: ps
           end
  end.

(** What a text-mode [open(path, "r")] makes of the text of a file
    (universal newlines): a carriage return with the line feed after it,
    and a carriage return alone, are read as one line feed. *)
Fixpoint universal_newlines (s : string) : string :=
  match s with
  | EmptyString => EmptyString
  | String c t =>
      if Ascii.eqb c CR then
        match t with
        | String d t' =>
            if Ascii.eqb d LF then String LF (universal_newlines t')
            else String LF (universal_newlines t)
        | EmptyString => String LF EmptyString
        end
      else String c (universal_newlines t)
  end.

(** The lines of a text, each with the line feed that ends it, the last
    one without when the text does not end in one. *)
Fixpoint split_after_lf (s : string) : list string :=
  match s with
  | EmptyString => []
  | String c t =>
      if Ascii.eqb c LF then String c EmptyString :: split_after_lf t
      else match split_after_lf t with
           | [] => [String c EmptyString]
           | l :: ls => String c l :: ls
           end
  end.

(** [f.readlines()] on a file opened in text mode, [s] being the text
    of the file: its line ends are read as line feeds, and the lines are
    cut after each of them. *)
Definition readlines (s : string) : list string :=
  split_after_lf (universal_newlines s).

(** What a sequence of [f.write(line)] leaves in the file. *)
Definition writelines (ls : list string) : string :=
  fold_right String.append EmptyString ls.

(** [c.isspace()] for an ASCII character: tab, line feed, vertical tab,
    form feed, carriage return, the four separators 28..31 and the space. *)
Definition isspace (c : ascii) : bool :=
  let n := nat_of_ascii c in
  (((9 <=? n) && (n <=? 13)) || ((28 <=? n) && (n <=? 32)))%nat.

(** The white space outside ASCII, by its UTF-8 bytes: U+0085 and U+00A0
    are the bytes C2 85 and C2 A0. *)
Definition isspace2 (a b : ascii) : bool :=
  (nat_of_ascii a =? 194)%nat
  && ((nat_of_ascii b =? 133) || (nat_of_ascii b =? 160))%nat.

(** U+1680 is E1 9A 80; U+2000..U+200A, U+2028, U+2029 and U+202F are
    E2 80 80..8A, E2 80 A8, E2 80 A9 and E2 80 AF; U+205F is E2 81 9F;
    U+3000 is E3 80 80. *)
Definition isspace3 (a b c : ascii) : bool :=
  let x := nat_of_ascii a in
  let y := nat_of_ascii b in
  let z := nat_of_ascii c in
  (((x =? 225) && (y =? 154) && (z =? 128))
   || ((x =? 226) && (y =? 128)
       && (((128 <=? z) && (z <=? 138)) || (z =? 168) || (z =? 169)
           || (z =? 175)))
   || ((x =? 226) && (y =? 129) && (z =? 159))
   || ((x =? 227) && (y =? 128) && (z =? 128)))%nat.

(** The number of bytes of the white-space character a text starts
    with; 0 when it starts with none.  These are the characters for
    which [str.isspace] holds, the ones [strip()] and [split()] cut
    at. *)
Definition space_width (s : string) : nat :=
  match s with
  | EmptyString => 0
  | String a t =>
      if isspace a then 1
      else match t with
           | EmptyString => 0
           | String b t' =>
               if isspace2 a b then 2
               else match t' with
                    | EmptyString => 0
                    | String c _ => if isspace3 a b c then 3 else 0
                    end
           end
  end.

Fixpoint lstrip (s : string) : string :=
  match space_width s, s with
  | 1, String _ t => lstrip t
  | 2, String _ (String _ t) => lstrip t
  | 3, String _ (String _ (String _ t)) => lstrip t
  | _, _ => s
  end.

(** The text is white space only. *)
Definition all_space (s : string) : bool :=
  match lstrip s with
  | EmptyString => true
  | String _ _ => false
  end.

Fixpoint rstrip (s : string) : string :=
  match s with
  | EmptyString => EmptyString
  | String c t => if all_space s then EmptyString else String c (rstrip t)
  end.

(** [s.strip()] *)
Definition strip (s : string) : string := rstrip (lstrip s).

Fixpoint mem (c : ascii) (cs : string) : bool :=
  match cs with
  | EmptyString => false
  | String d t => Ascii.eqb c d || mem c t
  end.

Fixpoint lstrip_chars (cs s : string) : string :=
  match s with
  | EmptyString => EmptyString
  | String c t => if mem c cs then lstrip_chars cs t else s
  end.

Fixpoint rstrip_chars (cs s : string) : string :=
  match s with
  | EmptyString => EmptyString
  | String c t =>
      match rstrip_chars cs t with
      | EmptyString => if mem c cs then EmptyString else String c EmptyString
      | t' => String c t'
      end
  end.

(** [s.strip(cs)] *)
Definition strip_chars (cs s : string) : string :=
  rstrip_chars cs (lstrip_chars cs s).

Definition lower_char (c : ascii) : ascii :=
  let n := nat_of_ascii c in
  if ((65 <=? n) && (n <=? 90))%nat then ascii_of_nat (n + 32) else c.

(** [s.lower()] on the bytes of the text: the letters A..Z become
    a..z, the bytes of the characters outside ASCII are kept. *)
Fixpoint lower (s : string) : string :=
  match s with
  | EmptyString => EmptyString
  | String c t => String (lower_char c) (lower t)
  end.

(** [s.split()]: the maximal runs of characters that are not white
    space. *)
Fixpoint split_ws (s : string) : list string :=
  match space_width s, s with
  | 1, String _ t => split_ws t
  | 2, String _ (String _ t) => split_ws t
  | 3, String _ (String _ (String _ t)) => split_ws t
  | _, String c t =>
      if (space_width t =? 0)%nat
      then match split_ws t with
           | [] => [String c EmptyString]
           | w :: ws => String c w :: ws
           end
      else String c EmptyString :: split_ws t
  | _, EmptyString => []
  end.

(** [str(n)] for an integer. *)
Definition str (n : Z) : string := NilZero.string_of_int (Z.to_int n).

(** [len(set(xs))] for a list of integers: the number of distinct
    elements. *)
Definition len_set (xs : list Z) : nat := length (nodup Z.eq_dec xs).

End PyStr.

Import PyStr.


(* ================================================================== *)
(** ** The system the manager acts on *)
(* ================================================================== *)

(** What the manager does to the outside, in the order it does it. *)
Inductive Event : Type :=
| Run (argv : list string)                   (* run_command(argv) *)
| RunTo (argv : list string) (path : string) (* run_command(argv, stdout=open(path, "w")) *)
| Ask (prompt : string)                      (* Confirm.ask(prompt) *)
| Makedirs (path : string).                  (* os.makedirs(path, exist_ok=True) *)

(** The files the manager reads and writes itself, and the log of its
    calls.  [fstab] is the text of /etc/fstab as the file holds it, line
    ends included; the file is taken to exist and to be readable as text
    and writable (the tool runs as root). *)
Record World : Type := mkWorld {
  fstab : string;                 (* /etc/fstab *)
  fstab_backup : option string;   (* /etc/fstab.backup, when there is one *)
  mdadm_conf : string;            (* /etc/mdadm/mdadm.conf *)
  trace : list Event
}.

Definition log (e : Event) (w : World) : World :=
  mkWorld (fstab w) (fstab_backup w) (mdadm_conf w) (trace w ++ [e]).

Definition set_fstab (s : string) (w : World) : World :=
  mkWorld s (fstab_backup w) (mdadm_conf w) (trace w).

Definition set_fstab_backup (s : string) (w : World) : World :=
  mkWorld (fstab w) (Some s) (mdadm_conf w) (trace w).

Definition set_mdadm_conf (s : string) (w : World) : World :=
  mkWorld (fstab w) (fstab_backup w) s (trace w).

(** What a finished child process reports; [stdout] is the text
    [result.stdout] of the source. *)
Record Completed : Type := mkCompleted {
  returncode : Z;
  stdout : string
}.

(** The environment: the behaviour of everything the manager calls and
    does not implement.  Each answer may depend on all that happened
    before (the world it is asked in). *)
Record Env : Type := mkEnv {
  tool : World -> list string -> Completed;  (* the external programs *)
  answer : World -> string -> bool;          (* the user, at Confirm.ask *)
  makedirs_ok : World -> string -> bool;     (* whether os.makedirs succeeds *)
  int_of : string -> option Z                (* Python's int(s); None is ValueError *)
}.

(** The exceptions of the source; every handler in it is
    [except Exception], which catches them all. *)
Inductive Exn : Type :=
| ExternalToolError (argv : list string) (code : Z)
| KeyError
| IndexError
| ValueError
| OSError.

Inductive Result (A : Type) : Type :=
| Ok (a : A)
| Raise (e : Exn).

Arguments Ok {A} a.
Arguments Raise {A} e.

(** Computations that act on the world and may raise. *)
Definition M (A : Type) : Type := World -> Result A * World.

Definition ret {A} (a : A) : M A := fun w => (Ok a, w).

Definition raise {A} (e : Exn) : M A := fun w => (Raise e, w).

Definition bind {A B} (m : M A) (k : A -> M B) : M B :=
  fun w =>
    match m w with
    | (Ok a, w') => k a w'
    | (Raise e, w') => (Raise e, w')
    end.

(** [try: m  except Exception as e: h e] *)
Definition try_except {A} (m : M A) (h : Exn -> M A) : M A :=
  fun w =>
    match m w with
    | (Ok a, w') => (Ok a, w')
    | (Raise e, w') => h e w'
    end.

Definition lift {A} (r : Result A) : M A := fun w => (r, w).

Declare Scope py_scope.
Delimit Scope py_scope with py.
Notation "x <- c1 ;; c2" := (bind c1 (fun x => c2))
  (at level 61, c1 at next level, right associativity) : py_scope.
Notation "c1 ;; c2" := (bind c1 (fun _ => c2))
  (at level 61, right associativity) : py_scope.
Open Scope py_scope.

(** [for x in xs: body x] *)
Fixpoint for_each {A} (body : A -> M unit) (xs : list A) : M unit :=
  match xs with
  | [] => ret tt
  | x :: rest => body x ;; for_each body rest
  end.

(** [xs[i]] *)
Definition index {A} (xs : list A) (i : nat) : Result A :=
  match nth_error xs i with
  | Some x => Ok x
  | None => Raise IndexError
  end.

(** [d[k]] for a dict with integer keys. *)
Fixpoint getitem {V} (d : list (Z * V)) (k : Z) : Result V :=
  match d with
  | [] => Raise KeyError
  | (k', v) :: rest => if Z.eqb k k' then Ok v else getitem rest k
  end.

(** [min(xs)] and [max(xs)]; both raise ValueError on an empty list. *)
Definition py_min (xs : list Z) : Result Z :=
  match xs with
  | [] => Raise ValueError
  | x :: rest => Ok (fold_left Z.min rest x)
  end.

Definition py_max (xs : list Z) : Result Z :=
  match xs with
  | [] => Raise ValueError
  | x :: rest => Ok (fold_left Z.max rest x)
  end.

(** What the programs the manager runs do to the files of the model:
    [cp /etc/fstab /etc/fstab.backup] writes the backup; no other program
    the manager runs touches /etc/fstab or its backup. *)
Definition tool_effect (argv : list string) (w : World) : World :=
  match argv with
  | [prog; src; dst] =>
      if (prog =? "cp") && (src =? "/etc/fstab") && (dst =? "/etc/fstab.backup")
      then set_fstab_backup (fstab w) w
      else w
  | _ => w
  end.

(* ================================================================== *)
(** ** class RAIDManager *)
(* ================================================================== *)

Section RAIDManager.

Variable env : Env.

(** Modelled from the spec: [run_command] lives in utils.py, which is
    not part of the sources at hand.  It runs the command, waits for it,
    and returns what it printed; it raises on a non-zero exit status. *)
Definition run_command (argv : list string) : M string :=
  fun w =>
    let r := tool env w argv in
    let w' := log (Run argv) w in
    if Z.eqb (returncode r) 0
    then (Ok (stdout r), tool_effect argv w')
    else (Raise (ExternalToolError argv (returncode r)), w').

(** [run_command(argv, stdout=open("/etc/mdadm/mdadm.conf", "w"))]:
    opening the file empties it, and what the command prints goes into
    it. *)
Definition run_command_to_mdadm_conf (argv : list string) : M unit :=
  fun w =>
    let w0 := set_mdadm_conf "" w in
    let r := tool env w0 argv in
    let w' := set_mdadm_conf (stdout r)
                (log (RunTo argv "/etc/mdadm/mdadm.conf") w0) in
    if Z.eqb (returncode r) 0
    then (Ok tt, w')
    else (Raise (ExternalToolError argv (returncode r)), w').

(** [Confirm.ask(prompt)], for a user who answers: the question is
    asked and the answer, yes or no, is returned.  A user who interrupts
    the program instead of answering is outside the model. *)
Definition confirm (prompt : string) : M bool :=
  fun w => (Ok (answer env w prompt), log (Ask prompt) w).

(** [os.makedirs(path, exist_ok=True)] *)
Definition makedirs (path : string) : M unit :=
  fun w =>
    let w' := log (Makedirs path) w in
    if makedirs_ok env w path then (Ok tt, w') else (Raise OSError, w').

(** [int(s)] *)
Definition int (s : string) : Result Z :=
  match int_of env s with
  | Some n => Ok n
  | None => Raise ValueError
  end.

(** [with open("/etc/fstab", "r") as f: f.readlines()], the file being
    opened in text mode.  The model is of a system on which /etc/fstab
    exists and can be opened, read as text and written by the manager:
    opening, reading and writing it do not fail. *)
Definition read_fstab_lines : M (list string) :=
  fun w => (Ok (readlines (fstab w)), w).

(** [with open("/etc/fstab", "a") as f: f.write(s)]; the write is
    taken to succeed (see [read_fstab_lines]).  What the properties
    below say of a table that was added to, they say of a table update
    that has returned. *)
Definition append_fstab (s : string) : M unit :=
  fun w => (Ok tt, set_fstab (fstab w ++ s) w).

(** [with open("/etc/fstab", "w") as f:] followed by one [f.write] for
    each of [ls]; the writes are taken to succeed (see
    [read_fstab_lines]). *)
Definition rewrite_fstab (ls : list string) : M unit :=
  fun w => (Ok tt, set_fstab (writelines ls) w).

(* ---------------------------------------------------------------- *)
(** *** Disk inspection *)

Definition _check_disk_health (disk : string) : M bool :=
  try_except
    (out <- run_command ["smartctl"; "-H"; disk] ;;
     ret (contains "PASSED" out))
    (fun _ => ret true).

(** The loop of [_check_disk_sizes] that fills [sizes]. *)
Fixpoint read_sizes (disks : list string) : M (list Z) :=
  match disks with
  | [] => ret []
  | disk :: rest =>
      out <- run_command ["blockdev"; "--getsize64"; disk] ;;
      n <- lift (int (strip out)) ;;
      sizes <- read_sizes rest ;;
      ret (n :: sizes)
  end.

Definition _check_disk_sizes (disks : list string) : M bool :=
  try_except
    (sizes <- read_sizes disks ;;
     ret (Nat.eqb (len_set sizes) 1))
    (fun _ => ret false).

Definition recommend_raid_level (num_disks : Z) (disk_sizes : list Z)
  : Result Z :=
  if Z.eqb num_disks 2 then Ok 1%Z
  else if Z.eqb num_disks 3 then Ok 5%Z
  else if Z.leb 4 num_disks then
    match py_min disk_sizes with
    | Raise e => Raise e
    | Ok lo =>
        match py_max disk_sizes with
        | Raise e => Raise e
        | Ok hi => if Z.eqb lo hi then Ok 6%Z else Ok 5%Z
        end
    end
  else Ok 0%Z.

(* ---------------------------------------------------------------- *)
(** *** Array topology *)

Definition min_disks : list (Z * Z) :=
  [(0, 2); (1, 2); (5, 3); (6, 4)]%Z.

Definition _create_partition (disk : string) : M unit :=
  run_command ["parted"; "-s"; disk; "mklabel"; "gpt"] ;;
  run_command ["parted"; "-s"; disk; "mkpart"; "primary"; "0%"; "100%"] ;;
  run_command ["parted"; "-s"; disk; "set"; "1"; "raid"; "on"] ;;
  ret tt.

Definition _create_raid_array (disks : list string) (level : Z)
    (device_name : string) : M unit :=
  let partitions := map (fun disk => disk ++ "1") disks in
  let cmd :=
    (["mdadm"; "--create"; "--verbose";
      device_name;
      "--level"; str level;
      "--raid-devices"; str (Z.of_nat (length disks))]
     ++ partitions)%list in
  run_command cmd ;;
  ret tt.

Definition _create_filesystem (device_name : string) : M unit :=
  run_command ["mkfs.ext4"; device_name] ;;
  ret tt.

Definition _mount_raid (device_name mount_point : string) : M unit :=
  makedirs mount_point ;;
  run_command ["mount"; device_name; mount_point] ;;
  ret tt.

(* ---------------------------------------------------------------- *)
(** *** The mount table *)

(** The loop of [_get_raid_level] over the lines of the array detail. *)
Fixpoint raid_level_scan (lines : list string) : Result Z :=
  match lines with
  | [] => Ok 0%Z
  | line :: rest =>
      if contains "Raid Level" line then
        match index (split ":" line) 1 with
        | Raise e => Raise e
        | Ok field =>
            let level := lower (strip field) in
            if contains "raid0" level then Ok 0%Z
            else if contains "raid1" level then Ok 1%Z
            else if contains "raid5" level then Ok 5%Z
            else if contains "raid6" level then Ok 6%Z
            else raid_level_scan rest
        end
      else raid_level_scan rest
  end.

Definition _get_raid_level (device_name : string) : M Z :=
  try_except
    (out <- run_command ["mdadm"; "--detail"; device_name] ;;
     lift (raid_level_scan (split LF out)))
    (fun _ => ret 0%Z).

(** The option string [_update_fstab] computes from the array's level. *)
Definition mount_options (raid_level : Z) : string :=
  let mount_options := "defaults" in
  if existsb (Z.eqb raid_level) [1; 5; 6]%Z
  then mount_options ++ ",nofail,x-systemd.device-timeout=5"
  else mount_options ++ ",nofail,x-systemd.device-timeout=3".

(** The line [_update_fstab] adds:
    [f"UUID={uuid} {mount_point} ext4 {mount_options} 0 0\n"]. *)
Definition fstab_entry (uuid mount_point : string) (raid_level : Z)
  : string :=
  "UUID=" ++ uuid ++ " " ++ mount_point ++ " ext4 "
    ++ mount_options raid_level ++ " 0 0" ++ nl.

(** The second half of [_update_fstab]: the backup, then the append. *)
Definition append_entry (entry : string) : M unit :=
  let backup_file := "/etc/fstab.backup" in
  run_command ["cp"; "/etc/fstab"; backup_file] ;;
  append_fstab entry.

(** The handler of [_update_fstab] reports the exception and raises it
    again. *)
Definition _update_fstab (device_name mount_point : string) : M unit :=
  try_except
    (out <- run_command ["blkid"; "-s"; "UUID"; "-o"; "value"; device_name] ;;
     let uuid := strip out in
     raid_level <- _get_raid_level device_name ;;
     append_entry (fstab_entry uuid mount_point raid_level))
    (fun e => raise e).

(** The second half of [_remove_from_fstab]: the table is read, then
    written again without the lines that contain [uuid]. *)
Definition remove_entries_for_uuid (uuid : string) : M unit :=
  lines <- read_fstab_lines ;;
  rewrite_fstab (filter (fun line => negb (contains uuid line)) lines).

Definition _remove_from_fstab (device_name : string) : M unit :=
  out <- run_command ["blkid"; "-s"; "UUID"; "-o"; "value"; device_name] ;;
  let uuid := strip out in
  remove_entries_for_uuid uuid.

Definition _update_system : M unit :=
  run_command_to_mdadm_conf ["mdadm"; "--detail"; "--scan"] ;;
  run_command ["update-initramfs"; "-u"] ;;
  ret tt.

(* ---------------------------------------------------------------- *)
(** *** Status queries *)

(** The dict [_check_raid_status] returns.  Its ['message'] is only
    ever printed; the model keeps ['healthy']. *)
Record RaidStatus : Type := mkRaidStatus { healthy : bool }.

(** The loop of [_check_raid_status]; [ok] is [status['healthy']]. *)
Fixpoint raid_status_scan (lines : list string) (ok : bool) : Result bool :=
  match lines with
  | [] => Ok ok
  | line :: rest =>
      if contains "State" line then
        match index (split ":" line) 1 with
        | Raise e => Raise e
        | Ok field =>
            let state := strip field in
            if negb (contains "clean" (lower state))
            then raid_status_scan rest false
            else raid_status_scan rest ok
        end
      else if contains "Failed Devices" line then
        match index (split ":" line) 1 with
        | Raise e => Raise e
        | Ok field =>
            match int (strip field) with
            | Raise e => Raise e
            | Ok failed =>
                if Z.ltb 0 failed
                then raid_status_scan rest false
                else raid_status_scan rest ok
            end
        end
      else raid_status_scan rest ok
  end.

Definition _check_raid_status (device_name : string) : M RaidStatus :=
  try_except
    (out <- run_command ["mdadm"; "--detail"; device_name] ;;
     ok <- lift (raid_status_scan (split LF out) true) ;;
     ret (mkRaidStatus ok))
    (fun _ => ret (mkRaidStatus false)).

(** The dict [_get_mount_info] returns. *)
Record MountInfo : Type := mkMountInfo {
  device : string;
  mountpoint : string;
  fstype : string;
  options : list string
}.

(** The loop of [_get_mount_info] over the lines [mount] prints. *)
Fixpoint mount_info_scan (device_name : string) (lines : list string)
  : Result (option MountInfo) :=
  match lines with
  | [] => Ok None
  | line :: rest =>
      if contains device_name line then
        let parts := split_ws line in
        match index parts 0, index parts 2, index parts 4, index parts 5 with
        | Ok p0, Ok p2, Ok p4, Ok p5 =>
            Ok (Some (mkMountInfo p0 p2 (strip_chars "()" p4)
                        (split "," (strip_chars "()" p5))))
        | _, _, _, _ => Raise IndexError
        end
      else mount_info_scan device_name rest
  end.

Definition _get_mount_info (device_name : string) : M (option MountInfo) :=
  try_except
    (out <- run_command ["mount"] ;;
     lift (mount_info_scan device_name (split LF out)))
    (fun _ => ret None).

(** The loop of [_get_raid_disks] over the lines of the array detail. *)
Fixpoint raid_disks_scan (lines : list string) : list string :=
  match lines with
  | [] => []
  | line :: rest =>
      if startswith "    " line then
        let parts := split_ws (strip line) in
        match parts with
        | p0 :: _ =>
            if (7 <=? length parts)%nat && startswith "/dev/" p0
            then p0 :: raid_disks_scan rest
            else raid_disks_scan rest
        | [] => raid_disks_scan rest
        end
      else raid_disks_scan rest
  end.

Definition _get_raid_disks (device_name : string) : M (list string) :=
  out <- run_command ["mdadm"; "--detail"; device_name] ;;
  ret (raid_disks_scan (split LF out)).

(* ---------------------------------------------------------------- *)
(** *** The lifecycle operations *)

(** The first loop of [setup_raid]: [false] when the user declines to
    go on with a disk that is not healthy (the [return False] inside
    the loop). *)
Fixpoint health_checks (disks : list string) : M bool :=
  match disks with
  | [] => ret true
  | disk :: rest =>
      ok <- _check_disk_health disk ;;
      if negb ok then
        go <- confirm ("[yellow]경고: " ++ disk
                       ++ "의 상태가 좋지 않습니다. 계속하시겠습니까?[/yellow]") ;;
        if negb go then ret false else health_checks rest
      else health_checks rest
  end.

Definition setup_raid (disks : list string) (level : Z)
    (device_name mount_point : string) : M bool :=
  try_except
    (go <- confirm "계속하시겠습니까?" ;;
     if negb go then ret false else
     go <- health_checks disks ;;
     if negb go then ret false else
     need <- lift (getitem min_disks level) ;;
     if Z.ltb (Z.of_nat (length disks)) need then ret false else
     same <- _check_disk_sizes disks ;;
     go <- (if negb same
            then confirm "[yellow]경고: 선택한 디스크들의 용량이 다릅니다. 계속하시겠습니까?[/yellow]"
            else ret true) ;;
     if negb go then ret false else
     for_each _create_partition disks ;;
     _create_raid_array disks level device_name ;;
     _create_filesystem device_name ;;
     _mount_raid device_name mount_point ;;
     _update_fstab device_name mount_point ;;
     _update_system ;;
     ret true)
    (fun _ => ret false).

Definition remove_raid (device_name : string) : M bool :=
  try_except
    (run_command ["mdadm"; "--stop"; device_name] ;;
     disks <- _get_raid_disks device_name ;;
     for_each (fun disk =>
                 run_command ["mdadm"; "--zero-superblock"; disk] ;; ret tt)
              disks ;;
     _remove_from_fstab device_name ;;
     ret true)
    (fun _ => ret false).

Definition change_mount_point (device_name new_mount_point : string)
  : M bool :=
  try_except
    (run_command ["umount"; device_name] ;;
     makedirs new_mount_point ;;
     run_command ["mount"; device_name; new_mount_point] ;;
     _update_fstab device_name new_mount_point ;;
     ret true)
    (fun _ => ret false).

Definition remount_device (device_name : string) : M bool :=
  try_except
    (mount_info <- _get_mount_info device_name ;;
     match mount_info with
     | None => ret false
     | Some mount_info =>
         let is_raid := startswith "/dev/md" device_name in
         run_command ["umount"; device_name] ;;
         go <- (if is_raid then
                  raid_status <- _check_raid_status device_name ;;
                  if negb (healthy raid_status)
                  then confirm "계속 진행하시겠습니까?"
                  else ret true
                else ret true) ;;
         if negb go then ret false else
         _update_fstab device_name (mountpoint mount_info) ;;
         (if is_raid
          then run_command ["mount"; device_name; mountpoint mount_info]
          else run_command ["mount"; "-a"]) ;;
         ret true
     end)
    (fun _ => ret false).

(* ---------------------------------------------------------------- *)
(** *** Descriptions *)

(** [d.get(k, default)] for a dict with integer keys. *)
Definition dict_get {V} (d : list (Z * V)) (k : Z) (default : V) : V :=
  match getitem d k with
  | Ok v => v
  | Raise _ => default
  end.

Definition descriptions : list (Z * string) :=
  [(0, "스트라이핑 - 최대 성능, 데이터 중복 없음");
   (1, "미러링 - 최대 안정성, 50% 용량 효율");
   (5, "패리티 - 성능과 안정성의 균형, 1개 디스크 장애 허용");
   (6, "이중 패리티 - 최대 안정성, 2개 디스크 장애 허용")]%Z.

Definition get_raid_level_description (level : Z) : string :=
  dict_get descriptions level "알 수 없는 RAID 레벨".

End RAIDManager.

(** The lifecycle operations, as a sequence of them is given. *)
Inductive Op : Type :=
| SetupArray (disks : list string) (level : Z) (device_name mount_point : string)
| ChangeMountPoint (device_name new_mount_point : string)
| RemountDevice (device_name : string)
| RemoveArray (device_name : string).

Definition run_op (env : Env) (op : Op) : M bool :=
  match op with
  | SetupArray disks level dev mp => setup_raid env disks level dev mp
  | ChangeMountPoint dev mp => change_mount_point env dev mp
  | RemountDevice dev => remount_device env dev
  | RemoveArray dev => remove_raid env dev
  end.

(** A sequence of lifecycle operations is run one after the other,
    whatever each returns. *)
Fixpoint run_ops (env : Env) (ops : list Op) (w : World) : World :=
  match ops with
  | [] => w
  | op :: rest => run_ops env rest (snd (run_op env op w))
  end.

(* ================================================================== *)
(** ** Notions the properties are stated with *)
(* ================================================================== *)

(** *** The text of the table *)

(** A text that is empty or ends in a line feed: every line of it is a
    whole line. *)
Fixpoint terminated (s : string) : bool :=
  match s with
  | EmptyString => true
  | String c t =>
      match t with
      | EmptyString => Ascii.eqb c LF
      | String _ _ => terminated t
      end
  end.


(** A text with no line feed in it. *)
Definition no_lf (s : string) : Prop := mem LF s = false.

(** A text with no carriage return in it. *)
Definition no_cr (s : string) : Prop := mem CR s = false.



(** The entries of a table for a UUID: the lines, as they are read,
    whose first field is [UUID=<uuid>]. *)
Definition entries_for (uuid table : string) : list string :=
  filter (startswith ("UUID=" ++ uuid ++ " ")) (readlines table).


(** The lines that do not contain [uuid]. *)
Definition lines_without (uuid : string) (lines : list string) : list string :=
  filter (fun line => negb (contains uuid line)) lines.

(** The table that the removal of a UUID leaves. *)
Definition without_uuid (uuid table : string) : string :=
  writelines (filter (fun line => negb (contains uuid line)) (readlines table)).

(** A whole line: a text without line feed, and the line feed after it. *)
Definition whole_line (l : string) : Prop :=
  exists body, no_lf body /\ l = body ++ nl.

(** Lines as a text is cut into them: whole lines, except that the last
    one may lack its line feed (and is not empty then). *)
Fixpoint file_lines (ls : list string) : Prop :=
  match ls with
  | [] => True
  | l :: rest =>
      match rest with
      | [] => whole_line l \/ (no_lf l /\ l <> "")
      | _ :: _ => whole_line l /\ file_lines rest
      end
  end.

(** *** Calls *)

Definition argv_eqb (a b : list string) : bool :=
  (Nat.eqb (length a) (length b))
  && forallb (fun p => String.eqb (fst p) (snd p)) (combine a b).

Definition is_run (argv : list string) (e : Event) : bool :=
  match e with
  | Run a => argv_eqb a argv
  | _ => false
  end.

(** Some event that satisfies [p] comes strictly before some event that
    satisfies [q]. *)
Fixpoint occurs_before (p q : Event -> bool) (tr : list Event) : bool :=
  match tr with
  | [] => false
  | e :: rest => (p e && existsb q rest) || occurs_before p q rest
  end.

(** The calls that only ask: a question to the user, a SMART health
    query. *)
Definition query_only (e : Event) : bool :=
  match e with
  | Ask _ => true
  | Run [prog; flag; _] => (prog =? "smartctl") && (flag =? "-H")
  | _ => false
  end.

(** The calls that change the system: partitioning, array creation,
    stopping and superblock erasure, formatting, mounting and
    unmounting, directory creation, the table backup, the array
    configuration file and the boot image. *)
Definition mutating (e : Event) : bool :=
  match e with
  | Ask _ => false
  | Makedirs _ => true
  | RunTo _ _ => true
  | Run [] => false
  | Run (prog :: args) =>
      (prog =? "parted") || (prog =? "mkfs.ext4") || (prog =? "mount")
      || (prog =? "umount") || (prog =? "cp") || (prog =? "update-initramfs")
      || ((prog =? "mdadm")
          && existsb (fun a => (a =? "--create") || (a =? "--stop")
                               || (a =? "--zero-superblock")) args)
  end.

(** The query of the file system UUID of a device. *)
Definition blkid_call (device_name : string) : Event :=
  Run ["blkid"; "-s"; "UUID"; "-o"; "value"; device_name].

(** The query of the detail of an array. *)
Definition detail_call (device_name : string) : Event :=
  Run ["mdadm"; "--detail"; device_name].

(** The query of the capacity of a disk. *)
Definition blockdev_call (disk : string) : Event :=
  Run ["blockdev"; "--getsize64"; disk].

(** The call that stops an array. *)
Definition stop_call (device_name : string) : Event :=
  Run ["mdadm"; "--stop"; device_name].

(** The call that erases the superblock of a disk. *)
Definition zero_call (disk : string) : Event :=
  Run ["mdadm"; "--zero-superblock"; disk].

(** The three calls of [_create_partition] on a disk. *)
Definition partition_calls (disk : string) : list Event :=
  [Run ["parted"; "-s"; disk; "mklabel"; "gpt"];
   Run ["parted"; "-s"; disk; "mkpart"; "primary"; "0%"; "100%"];
   Run ["parted"; "-s"; disk; "set"; "1"; "raid"; "on"]].

(** The call of [_create_raid_array]. *)
Definition create_call (disks : list string) (level : Z)
    (device_name : string) : Event :=
  let partitions := map (fun disk => disk ++ "1") disks in
  Run (["mdadm"; "--create"; "--verbose"; device_name;
        "--level"; str level;
        "--raid-devices"; str (Z.of_nat (length disks))]
       ++ partitions)%list.

(** The three calls of a table update that succeeds. *)
Definition update_fstab_calls (device_name : string) : list Event :=
  [Run ["blkid"; "-s"; "UUID"; "-o"; "value"; device_name];
   Run ["mdadm"; "--detail"; device_name];
   Run ["cp"; "/etc/fstab"; "/etc/fstab.backup"]].

(** *** Worlds *)

(** The world after the calls [evs], none of which has changed a file. *)
Definition logs (evs : list Event) (w : World) : World :=
  mkWorld (fstab w) (fstab_backup w) (mdadm_conf w) (trace w ++ evs).

(** [m] takes every world to one that [P] relates it to. *)
Definition stays {A} (P : World -> World -> Prop) (m : M A) : Prop :=
  forall w, P w (snd (m w)).

(** The table is what it was. *)
Definition same_fstab (w w' : World) : Prop := fstab w' = fstab w.

(** No file has changed, and all that was done was to ask. *)
Definition only_asked (w w' : World) : Prop :=
  fstab w' = fstab w
  /\ fstab_backup w' = fstab_backup w
  /\ mdadm_conf w' = mdadm_conf w
  /\ exists evs, trace w' = (trace w ++ evs)%list
                 /\ Forall (fun e => query_only e = true) evs.

(** A computation that always returns, never raises. *)
Definition total {A} (m : M A) : Prop :=
  forall w, exists a, fst (m w) = Ok a.

(** No file of the model has changed. *)
Definition unchanged_files (w w' : World) : Prop :=
  fstab w' = fstab w
  /\ fstab_backup w' = fstab_backup w
  /\ mdadm_conf w' = mdadm_conf w.

(** The calls [evs] were made, in this order, and no file has changed. *)
Definition ran (evs : list Event) (w w' : World) : Prop :=
  unchanged_files w w' /\ trace w' = (trace w ++ evs)%list.

(** No file has changed and no call that changes the system was made. *)
Definition quiet (w w' : World) : Prop :=
  exists evs, ran evs w w' /\ Forall (fun e => mutating e = false) evs.

(** The log has only grown. *)
Definition extends (w w' : World) : Prop :=
  exists evs, trace w' = (trace w ++ evs)%list.

(** *** What the queries answer *)

(** The UUID of a device, as a table update or a removal reads it when
    it asks in the world [w]: what [blkid] prints, stripped. *)
Definition device_uuid (env : Env) (device_name : string) (w : World)
  : string :=
  strip (stdout (tool env w ["blkid"; "-s"; "UUID"; "-o"; "value"; device_name])).

(** Whether the UUID query succeeds in the world [w]. *)
Definition uuid_known (env : Env) (device_name : string) (w : World) : Prop :=
  returncode (tool env w ["blkid"; "-s"; "UUID"; "-o"; "value"; device_name])
  = 0%Z.

(** The level [_get_raid_level] answers with in the world [w]. *)
Definition raid_level_at (env : Env) (device_name : string) (w : World) : Z :=
  match fst (_get_raid_level env device_name w) with
  | Ok level => level
  | Raise _ => 0%Z
  end.

(** Whether [_check_raid_status] calls the array healthy in the world
    [w]. *)
Definition raid_healthy (env : Env) (device_name : string) (w : World) : bool :=
  match fst (_check_raid_status env device_name w) with
  | Ok status => healthy status
  | Raise _ => false
  end.

(** The copy of the table to its backup. *)
Definition backup_call : Event :=
  Run ["cp"; "/etc/fstab"; "/etc/fstab.backup"].

(** Whether the copy of the table to its backup succeeds in a table
    update that starts in the world [w]: it is made after the UUID query
    and the level query. *)
Definition backup_succeeds (env : Env) (device_name : string) (w : World)
  : Prop :=
  returncode
    (tool env (logs [blkid_call device_name; detail_call device_name] w)
       ["cp"; "/etc/fstab"; "/etc/fstab.backup"])
  = 0%Z.

(** The entry a table update adds when it starts in the world [w]: the
    UUID is asked for in [w], the level after that query. *)
Definition new_entry (env : Env) (device_name mount_point : string)
    (w : World) : string :=
  fstab_entry (device_uuid env device_name w) mount_point
    (raid_level_at env device_name (log (blkid_call device_name) w)).

(** The world a table update that succeeds leaves. *)
Definition updated (env : Env) (device_name mount_point : string)
    (w : World) : World :=
  mkWorld (fstab w ++ new_entry env device_name mount_point w)
    (Some (fstab w)) (mdadm_conf w)
    (trace w ++ update_fstab_calls device_name).

(** The capacity a disk reports when it is asked in the world [w]: the
    number that what [blockdev] prints, stripped, reads as; [None] when
    the tool fails or prints no number. *)
Definition size_at (env : Env) (w : World) (disk : string) : option Z :=
  let r := tool env w ["blockdev"; "--getsize64"; disk] in
  if Z.eqb (returncode r) 0 then int_of env (strip (stdout r)) else None.

(** The world in which the disk number [i] is asked for its capacity:
    the disks before it have been asked. *)
Definition size_world (disks : list string) (w : World) (i : nat) : World :=
  logs (map blockdev_call (firstn i disks)) w.

(** The capacity the disk number [i] reports when its turn comes. *)
Definition size_of (env : Env) (disks : list string) (w : World) (i : nat)
  : option Z :=
  size_at env (size_world disks w i) (nth i disks "").

(** The calls of [remount_device] between the umount and the table
    update, made in the world [w]: for an array the health query and,
    when the array is not healthy, the question to the user. *)
Definition status_calls (env : Env) (device_name : string) (w : World)
  : list Event :=
  if startswith "/dev/md" device_name then
    if raid_healthy env device_name w
    then [detail_call device_name]
    else [detail_call device_name; Ask "계속 진행하시겠습니까?"]
  else [].

(** The last call of a remount. *)
Definition mount_again (device_name : string) (mount_info : MountInfo)
  : Event :=
  if startswith "/dev/md" device_name
  then Run ["mount"; device_name; mountpoint mount_info]
  else Run ["mount"; "-a"].

(** All numbers of a list are the same number. *)
Definition all_identical (xs : list Z) : Prop :=
  forall a b, In a xs -> In b xs -> a = b.

(** *** The edits of the table *)






(** *** The detail of an array *)

(** The value of a "Raid Level" line as [_get_raid_level] reads it: the
    text between the first and the second colon, stripped and in lower
    case; [None] when the line has no colon. *)
Definition level_value (line : string) : option string :=
  match index (split ":" line) 1 with
  | Ok field => Some (lower (strip field))
  | Raise _ => None
  end.

(** A value that names none of the four levels. *)
Definition names_no_level (v : string) : Prop :=
  contains "raid0" v = false /\ contains "raid1" v = false
  /\ contains "raid5" v = false /\ contains "raid6" v = false.

(** A line the scan passes over: it is no "Raid Level" line, or its value
    names no level. *)
Definition passed_over (line : string) : Prop :=
  contains "Raid Level" line = false
  \/ exists v, level_value line = Some v /\ names_no_level v.

(** A line of the array detail that does not speak against the array:
    a "State" line must have a value with "clean" in it, a "Failed
    Devices" line a count that is not positive. *)
Definition status_line_ok (env : Env) (line : string) : Prop :=
  if contains "State" line then
    exists field, index (split ":" line) 1 = Ok field
                  /\ contains "clean" (lower (strip field)) = true
  else if contains "Failed Devices" line then
    exists field n, index (split ":" line) 1 = Ok field
                    /\ int_of env (strip field) = Some n
                    /\ (n <= 0)%Z
  else True.

(** The fields of a line of the array detail, as [_get_raid_disks]
    cuts it. *)
Definition member_fields (line : string) : list string :=
  split_ws (strip line).

(** The first field of a line of the array detail. *)
Definition first_field (line : string) : string :=
  hd "" (member_fields line).

(** A line of the array detail that [_get_raid_disks] takes a disk
    from: it starts with four spaces, has seven fields or more, and its
    first field is a path under /dev/. *)
Definition member_line (line : string) : bool :=
  startswith "    " line
  && (7 <=? length (member_fields line))%nat
  && startswith "/dev/" (first_field line).


(* ================================================================== *)
(** ** A concrete system, to run the operations on *)
(* ================================================================== *)

Module Scenario.

(** The digits of a number, with single underscores between them;
    [seen] tells that the character before was a digit. *)
Fixpoint digits (s : string) (acc : Z) (seen : bool) : option Z :=
  match s with
  | EmptyString => if seen then Some acc else None
  | String c t =>
      let n := nat_of_ascii c in
      if ((48 <=? n) && (n <=? 57))%nat
      then digits t (acc * 10 + Z.of_nat (n - 48)) true
      else if Ascii.eqb c "_" && seen then digits t acc false
      else None
  end.

(** A reading of [int(s)] for the texts of the scenarios: white space
    around the number, a sign, decimal digits with single underscores
    between them. *)
Definition decimal (s : string) : option Z :=
  match strip s with
  | String "-" t => option_map Z.opp (digits t 0 false)
  | String "+" t => digits t 0 false
  | t => digits t 0 false
  end.

(** What [mdadm --detail /dev/md0] prints for a two-disk mirror with
    one failed member. *)
Definition detail : string :=
  "/dev/md0:" ++ nl ++
  "        Raid Level : raid1" ++ nl ++
  "             State : clean, degraded" ++ nl ++
  "    Failed Devices : 1" ++ nl ++
  "    Number   Major   Minor   RaidDevice State" ++ nl ++
  "       0       8       17        0      active sync   /dev/sdb1" ++ nl.

Definition tools (_ : World) (argv : list string) : Completed :=
  match argv with
  | [] => mkCompleted 1 ""
  | prog :: args =>
      if prog =? "mount" then
        match args with
        | [] => mkCompleted 0
                  ("/dev/md0 on /mnt/raid type ext4 (rw,relatime)" ++ nl)
        | _ => mkCompleted 0 ""
        end
      else if prog =? "blkid" then mkCompleted 0 ("abcd-1234" ++ nl)
      else if prog =? "mdadm" then
        match args with
        | flag :: _ => if flag =? "--detail" then mkCompleted 0 detail
                       else mkCompleted 0 ""
        | [] => mkCompleted 0 ""
        end
      else if prog =? "smartctl" then
        mkCompleted 0 ("SMART overall-health self-assessment test result: PASSED" ++ nl)
      else if prog =? "blockdev" then mkCompleted 0 ("1000204886016" ++ nl)
      else mkCompleted 0 ""
  end.

(** The user answers every question with [yes]. *)
Definition env (yes : bool) : Env :=
  mkEnv tools (fun _ _ => yes) (fun _ _ => true) decimal.

(** A system in which every program prints [text] and succeeds. *)
Definition printing (text : string) : Env :=
  mkEnv (fun _ _ => mkCompleted 0 text) (fun _ _ => true) (fun _ _ => true)
    decimal.

(** A system in which a disk reports, as its capacity, what its name
    is. *)
Definition named_sizes : Env :=
  mkEnv (fun _ argv => mkCompleted 0 (last argv "" ++ nl))
    (fun _ _ => true) (fun _ _ => true) decimal.

(** A system with an empty table. *)
Definition fresh : World := mkWorld "" None "" [].

(** A system whose table has the entry of /dev/md0, mounted on
    /mnt/raid. *)
Definition mounted : World :=
  mkWorld (fstab_entry "abcd-1234" "/mnt/raid" 1) None "" [].


End Scenario.

(* ================================================================== *)
(** ** The string operations on small inputs *)
(* ================================================================== *)

Example split_lines : split LF ("a" ++ nl ++ "b" ++ nl) = ["a"; "b"; ""].
Proof. reflexivity. Qed.

Example split_colon : split ":" "Raid Level : raid6" = ["Raid Level "; " raid6"].
Proof. reflexivity. Qed.

Example readlines_keeps : readlines ("a" ++ nl ++ "b") = ["a" ++ nl; "b"].
Proof. reflexivity. Qed.

(** A carriage return, alone or before a line feed, ends a line and is
    read as a line feed. *)
Example readlines_line_ends :
  readlines ("a" ++ String CR "b" ++ String CR (nl ++ "c" ++ nl ++ "d"))
  = ["a" ++ nl; "b" ++ nl; "c" ++ nl; "d"].
Proof. reflexivity. Qed.

Example strip_both : strip ("  x y " ++ nl) = "x y".
Proof. reflexivity. Qed.

(** U+00A0 (no-break space) and U+2003 (em space) are white space;
    U+20AC (the euro sign) is not. *)
Example strip_unicode :
  let nbsp := String (ascii_of_nat 194) (String (ascii_of_nat 160) "") in
  let emsp := String (ascii_of_nat 226)
                (String (ascii_of_nat 128) (String (ascii_of_nat 131) "")) in
  let euro := String (ascii_of_nat 226)
                (String (ascii_of_nat 130) (String (ascii_of_nat 172) "")) in
  strip (nbsp ++ " x" ++ euro ++ emsp ++ nl) = "x" ++ euro
  /\ split_ws ("a" ++ nbsp ++ "b" ++ emsp ++ euro ++ " c")
     = ["a"; "b"; euro; "c"].
Proof. split; reflexivity. Qed.

Example split_ws_fields :
  split_ws "/dev/md0 on /mnt/raid type ext4 (rw,relatime)"
  = ["/dev/md0"; "on"; "/mnt/raid"; "type"; "ext4"; "(rw,relatime)"].
Proof. reflexivity. Qed.

Example lower_mixed : lower "RAID6 x" = "raid6 x".
Proof. reflexivity. Qed.

Example str_minus : str (-12) = "-12".
Proof. reflexivity. Qed.

Example raid_level_scan_raid6 :
  raid_level_scan (split LF ("/dev/md0:" ++ nl ++ "  Raid Level : raid6" ++ nl))
  = Ok 6%Z.
Proof. reflexivity. Qed.

Example raid_level_scan_none :
  raid_level_scan (split LF ("/dev/md0:" ++ nl ++ "  State : clean" ++ nl))
  = Ok 0%Z.
Proof. reflexivity. Qed.

Example recommend_two : recommend_raid_level 2 [100; 100]%Z = Ok 1%Z.
Proof. reflexivity. Qed.

Example recommend_three : recommend_raid_level 3 [100; 100; 100]%Z = Ok 5%Z.
Proof. reflexivity. Qed.

Example recommend_four_same :
  recommend_raid_level 4 [100; 100; 100; 100]%Z = Ok 6%Z.
Proof. reflexivity. Qed.

Example recommend_four_mixed :
  recommend_raid_level 4 [100; 50; 100; 100]%Z = Ok 5%Z.
Proof. reflexivity. Qed.

Example recommend_one : recommend_raid_level 1 [100]%Z = Ok 0%Z.
Proof. reflexivity. Qed.

(* ================================================================== *)
(** ** Facts about the string operations *)
(* ================================================================== *)






Lemma mem_app (c : ascii) (a b : string) :
  mem c (a ++ b) = mem c a || mem c b.
Proof.
  induction a as [|d a IH]; simpl.
  - reflexivity.
  - rewrite IH. apply orb_assoc.
Qed.


Lemma append_nil_r (a : string) : a ++ "" = a.
Proof. induction a as [|x a IH]; simpl; [reflexivity|]. now rewrite IH. Qed.

(** *** Cutting a text after its line feeds *)

Lemma split_after_lf_nil (s : string) : split_after_lf s = [] -> s = "".
Proof.
  destruct s as [|c t]; simpl; [reflexivity|].
  destruct (Ascii.eqb c LF); [discriminate|].
  destruct (split_after_lf t); discriminate.
Qed.


Lemma terminated_tail (c : ascii) (t : string) :
  terminated (String c t) = true ->
  terminated t = true /\ (Ascii.eqb c LF = false -> t <> "").
Proof.
  simpl. destruct t as [|d t'].
  - intros H. split; [reflexivity|]. intros E. congruence.
  - intros H. split; [exact H|]. discriminate.
Qed.

Lemma split_after_lf_app (a b : string) :
  terminated a = true ->
  split_after_lf (a ++ b) = (split_after_lf a ++ split_after_lf b)%list.
Proof.
  induction a as [|c t IH]; intros T.
  - reflexivity.
  - apply terminated_tail in T. destruct T as [T NE].
    change (String c t ++ b) with (String c (t ++ b)).
    simpl. destruct (Ascii.eqb c LF) eqn:Ec.
    + rewrite IH by exact T. reflexivity.
    + rewrite IH by exact T.
      destruct (split_after_lf t) as [|l ls] eqn:E.
      * apply split_after_lf_nil in E. exfalso. now apply NE.
      * reflexivity.
Qed.

Lemma split_after_lf_body (body : string) :
  no_lf body -> split_after_lf (body ++ nl) = [body ++ nl].
Proof.
  unfold no_lf. induction body as [|c t IH]; intros H.
  - reflexivity.
  - change (Ascii.eqb LF c || mem LF t = false) in H.
    apply orb_false_elim in H. destruct H as [Hc Ht].
    rewrite Ascii.eqb_sym in Hc.
    change (split_after_lf (String c (t ++ nl)) = [String c (t ++ nl)]).
    cbn [split_after_lf]. rewrite Hc, IH by exact Ht. reflexivity.
Qed.

Lemma terminated_app_nl (a body : string) :
  terminated a = true -> terminated (a ++ body ++ nl) = true.
Proof.
  assert (B : forall s, terminated (s ++ nl) = true).
  { induction s as [|c t IH]; [reflexivity|].
    change (terminated (String c (t ++ nl)) = true).
    simpl. destruct (t ++ nl) eqn:E; [|exact IH].
    destruct t; discriminate. }
  induction a as [|c t IH]; intros T.
  - apply B.
  - apply terminated_tail in T. destruct T as [T _].
    change (terminated (String c (t ++ body ++ nl)) = true).
    simpl. destruct (t ++ body ++ nl) eqn:E; [|apply IH, T].
    destruct t; simpl in E; [|discriminate].
    destruct body; discriminate.
Qed.

Lemma whole_line_cons (c : ascii) (l : string) :
  Ascii.eqb c LF = false -> whole_line l -> whole_line (String c l).
Proof.
  intros Hc (body & Hb & ->). exists (String c body). split; [|reflexivity].
  unfold no_lf in *. cbn [mem]. rewrite Ascii.eqb_sym, Hc. exact Hb.
Qed.

Lemma file_lines_cons (l : string) (rest : list string) :
  whole_line l -> file_lines rest -> file_lines (l :: rest).
Proof.
  intros Hl Hr. destruct rest; cbn [file_lines]; [now left | now split].
Qed.

Lemma file_lines_tail (l : string) (rest : list string) :
  file_lines (l :: rest) -> file_lines rest.
Proof. destruct rest; cbn [file_lines]; [trivial | now intros [_ H]]. Qed.

Lemma file_lines_head (l l' : string) (rest : list string) :
  file_lines (l :: l' :: rest) -> whole_line l.
Proof. cbn [file_lines]. now intros [H _]. Qed.

Lemma split_after_lf_file_lines (t : string) : file_lines (split_after_lf t).
Proof.
  induction t as [|c t IH]; [exact I|].
  cbn [split_after_lf]. destruct (Ascii.eqb c LF) eqn:Ec.
  - apply file_lines_cons; [|exact IH].
    apply Ascii.eqb_eq in Ec. subst c. exists "". split; reflexivity.
  - destruct (split_after_lf t) as [|l [|l' ls]] eqn:E.
    + cbn [file_lines]. right. split; [|discriminate].
      unfold no_lf. cbn [mem]. now rewrite Ascii.eqb_sym, Ec.
    + cbn [file_lines] in *. destruct IH as [H|[H NE]].
      * left. now apply whole_line_cons.
      * right. split; [|discriminate].
        unfold no_lf in *. cbn [mem]. now rewrite Ascii.eqb_sym, Ec.
    + cbn [file_lines] in *. destruct IH as [H IH]. split; [|exact IH].
      now apply whole_line_cons.
Qed.

Lemma filter_file_lines (f : string -> bool) (ls : list string) :
  file_lines ls -> file_lines (filter f ls).
Proof.
  induction ls as [|l ls IH]; intros H; [exact I|].
  pose proof (IH (file_lines_tail _ _ H)) as IH'.
  cbn [filter]. destruct (f l); [|exact IH'].
  destruct ls as [|l' ls].
  - exact H.
  - apply file_lines_cons; [|exact IH']. eapply file_lines_head, H.
Qed.

Lemma split_after_lf_last (l : string) :
  no_lf l -> l <> "" -> split_after_lf l = [l].
Proof.
  unfold no_lf. induction l as [|c t IH]; intros H NE; [now elim NE|].
  change (Ascii.eqb LF c || mem LF t = false) in H.
  apply orb_false_elim in H. destruct H as [Hc Ht].
  rewrite Ascii.eqb_sym in Hc. cbn [split_after_lf]. rewrite Hc.
  destruct t as [|d t']; [reflexivity|].
  rewrite IH by (exact Ht || discriminate). reflexivity.
Qed.

Lemma split_after_lf_whole_line (l rest : string) :
  whole_line l -> split_after_lf (l ++ rest) = l :: split_after_lf rest.
Proof.
  intros (body & Hb & ->).
  rewrite split_after_lf_app, split_after_lf_body by
    (exact Hb || apply (terminated_app_nl "" body eq_refl)).
  reflexivity.
Qed.

(** Lines that were cut from a text are cut the same way from the text
    they are written to. *)
Lemma split_after_lf_writelines (ls : list string) :
  file_lines ls -> split_after_lf (writelines ls) = ls.
Proof.
  induction ls as [|l ls IH]; intros H; [reflexivity|].
  pose proof (IH (file_lines_tail _ _ H)) as IH'.
  change (writelines (l :: ls)) with (l ++ writelines ls).
  destruct ls as [|l' ls].
  - cbn [file_lines] in H. destruct H as [H|[H NE]].
    + rewrite split_after_lf_whole_line by exact H. reflexivity.
    + change (writelines []) with "". rewrite append_nil_r.
      now apply split_after_lf_last.
  - rewrite split_after_lf_whole_line by (eapply file_lines_head, H).
    now rewrite IH'.
Qed.

(** *** Line ends as they are read *)

Lemma universal_newlines_step (n : nat) :
  forall s, String.length s <= n ->
    no_cr (universal_newlines s)
    /\ (no_cr s -> universal_newlines s = s)
    /\ forall b, startswith nl b = false ->
         universal_newlines (s ++ b)
         = universal_newlines s ++ universal_newlines b.
Proof.
  unfold no_cr.
  induction n as [|n IH]; intros s Hn.
  - destruct s; [|simpl in Hn; lia].
    split; [reflexivity|]. split; reflexivity.
  - destruct s as [|c t]; [split; [reflexivity|]; split; reflexivity|].
    simpl in Hn. assert (Ht : String.length t <= n) by lia.
    destruct (IH t Ht) as (N & I & A).
    destruct (Ascii.eqb c CR) eqn:Ec.
    + apply Ascii.eqb_eq in Ec. subst c.
      destruct t as [|d t'].
      * split; [reflexivity|]. split; [discriminate|].
        intros b Hb. destruct b as [|e b']; [reflexivity|].
        change (universal_newlines (String CR (String e b'))
                = String LF (universal_newlines (String e b'))).
        assert (He : Ascii.eqb e LF = false).
        { cbn [startswith nl] in Hb. rewrite Ascii.eqb_sym in Hb.
          destruct (Ascii.eqb e LF); [discriminate Hb|reflexivity]. }
        change (universal_newlines (String CR (String e b')))
          with (if Ascii.eqb e LF then String LF (universal_newlines b')
                else String LF (universal_newlines (String e b'))).
        now rewrite He.
      * simpl in Ht. assert (Ht' : String.length t' <= n) by lia.
        destruct (IH t' Ht') as (N' & I' & A').
        assert (U : forall x,
                   universal_newlines (String CR (String d x))
                   = if Ascii.eqb d LF then String LF (universal_newlines x)
                     else String LF (universal_newlines (String d x)))
          by reflexivity.
        rewrite U.
        split; [|split].
        -- destruct (Ascii.eqb d LF); cbn [mem]; [exact N'|exact N].
        -- cbn [mem]. discriminate.
        -- intros b Hb.
           change (String CR (String d t') ++ b)
             with (String CR (String d (t' ++ b))).
           rewrite U. destruct (Ascii.eqb d LF).
           ++ rewrite (A' b Hb). reflexivity.
           ++ change (String d (t' ++ b)) with (String d t' ++ b).
              rewrite (A b Hb). reflexivity.
    + assert (U : forall x,
                 universal_newlines (String c x)
                 = String c (universal_newlines x)).
      { intros x. cbn [universal_newlines]. now rewrite Ec. }
      rewrite U. split; [|split].
      * cbn [mem]. rewrite Ascii.eqb_sym, Ec. exact N.
      * cbn [mem]. intros H. apply orb_false_elim in H.
        rewrite (I (proj2 H)). reflexivity.
      * intros b Hb.
        change (String c t ++ b) with (String c (t ++ b)).
        rewrite U, (A b Hb). reflexivity.
Qed.

(** What is read has no carriage return left in it. *)
Lemma universal_newlines_no_cr (s : string) : no_cr (universal_newlines s).
Proof. apply (@universal_newlines_step (String.length s) s (le_n _)). Qed.

(** A text without carriage return is read as it is. *)
Lemma universal_newlines_id (s : string) :
  no_cr s -> universal_newlines s = s.
Proof. apply (@universal_newlines_step (String.length s) s (le_n _)). Qed.



Lemma no_cr_app (a b : string) : no_cr a -> no_cr b -> no_cr (a ++ b).
Proof. unfold no_cr. intros Ha Hb. now rewrite mem_app, Ha, Hb. Qed.



Lemma no_cr_split_after_lf (s : string) :
  no_cr s -> Forall no_cr (split_after_lf s).
Proof.
  unfold no_cr. induction s as [|c t IH]; intros H; [constructor|].
  cbn [mem] in H. apply orb_false_elim in H. destruct H as [Hc Ht].
  specialize (IH Ht). cbn [split_after_lf].
  destruct (Ascii.eqb c LF).
  - constructor; [|exact IH]. cbn [mem]. now rewrite Hc.
  - destruct (split_after_lf t) as [|l ls].
    + constructor; [|constructor]. cbn [mem]. now rewrite Hc.
    + inversion IH as [|? ? Hl Hls]; subst. constructor; [|exact Hls].
      cbn [mem]. now rewrite Hc.
Qed.

Lemma no_cr_writelines (ls : list string) :
  Forall no_cr ls -> no_cr (writelines ls).
Proof.
  induction 1 as [|l ls Hl _ IH]; [reflexivity|].
  change (writelines (l :: ls)) with (l ++ writelines ls).
  now apply no_cr_app.
Qed.

Lemma Forall_filter {A} (P : A -> Prop) (f : A -> bool) (xs : list A) :
  Forall P xs -> Forall P (filter f xs).
Proof.
  induction 1 as [|x xs Hx _ IH]; [constructor|].
  cbn [filter]. destruct (f x); [constructor|]; assumption.
Qed.

(** *** Reading the table *)

Lemma readlines_no_cr (t : string) : Forall no_cr (readlines t).
Proof. apply no_cr_split_after_lf, universal_newlines_no_cr. Qed.

Lemma readlines_file_lines (t : string) : file_lines (readlines t).
Proof. apply split_after_lf_file_lines. Qed.


(** Lines that were read from a table are read again, as they are, from
    the table they are written to. *)
Lemma readlines_writelines (ls : list string) :
  file_lines ls -> Forall no_cr ls -> readlines (writelines ls) = ls.
Proof.
  intros F C. unfold readlines.
  rewrite universal_newlines_id by now apply no_cr_writelines.
  now apply split_after_lf_writelines.
Qed.

Lemma readlines_filtered (f : string -> bool) (t : string) :
  readlines (writelines (filter f (readlines t))) = filter f (readlines t).
Proof.
  apply readlines_writelines.
  - apply filter_file_lines, readlines_file_lines.
  - apply Forall_filter, readlines_no_cr.
Qed.

Lemma readlines_without_uuid (uuid t : string) :
  readlines (without_uuid uuid t) = lines_without uuid (readlines t).
Proof. apply readlines_filtered. Qed.








(* ================================================================== *)
(** ** Reasoning about computations *)
(* ================================================================== *)

Lemma bind_ok {A B} (m : M A) (k : A -> M B) (w w' : World) (b : B) :
  bind m k w = (Ok b, w') ->
  exists a w1, m w = (Ok a, w1) /\ k a w1 = (Ok b, w').
Proof.
  unfold bind. destruct (m w) as [[a|e] w1]; intros H.
  - now exists a, w1.
  - discriminate.
Qed.

Lemma bind_run {A B} (m : M A) (k : A -> M B) (w w1 : World) (a : A) :
  m w = (Ok a, w1) -> bind m k w = k a w1.
Proof. unfold bind. now intros ->. Qed.

Lemma bind_raise {A B} (m : M A) (k : A -> M B) (w w1 : World) (e : Exn) :
  m w = (Raise e, w1) -> bind m k w = (Raise e, w1).
Proof. unfold bind. now intros ->. Qed.

Section Frame.

Context {P : World -> World -> Prop} `{!PreOrder P}.

Lemma stays_ret {A} (a : A) : stays P (ret a).
Proof. intros w. simpl. reflexivity. Qed.

Lemma stays_raise {A} (e : Exn) : stays P (@raise A e).
Proof. intros w. simpl. reflexivity. Qed.

Lemma stays_lift {A} (r : Result A) : stays P (lift r).
Proof. intros w. simpl. reflexivity. Qed.

Lemma stays_bind {A B} (m : M A) (k : A -> M B) :
  stays P m -> (forall a, stays P (k a)) -> stays P (bind m k).
Proof.
  intros Hm Hk w. unfold bind.
  specialize (Hm w). destruct (m w) as [[a|e] w1]; simpl in *.
  - transitivity w1; [exact Hm | apply Hk].
  - exact Hm.
Qed.

Lemma stays_try_except {A} (m : M A) (h : Exn -> M A) :
  stays P m -> (forall e, stays P (h e)) -> stays P (try_except m h).
Proof.
  intros Hm Hh w. unfold try_except.
  specialize (Hm w). destruct (m w) as [[a|e] w1]; simpl in *.
  - exact Hm.
  - transitivity w1; [exact Hm | apply Hh].
Qed.

Lemma stays_if {A} (b : bool) (m1 m2 : M A) :
  stays P m1 -> stays P m2 -> stays P (if b then m1 else m2).
Proof. now destruct b. Qed.

Lemma stays_for_each {A} (body : A -> M unit) (xs : list A) :
  (forall x, stays P (body x)) -> stays P (for_each body xs).
Proof.
  intros Hb. induction xs as [|x xs IH]; simpl.
  - apply stays_ret.
  - apply stays_bind; [apply Hb | intros _; exact IH].
Qed.

End Frame.

(** Takes a goal [stays P m] apart along the structure of [m]. *)
Ltac frame_step :=
  first [ apply stays_ret | apply stays_raise | apply stays_lift
        | apply stays_for_each; intros ?
        | apply stays_if
        | apply stays_bind; [|intros ?]
        | apply stays_try_except; [|intros ?] ].

Ltac frame := repeat frame_step.

#[local] Instance same_fstab_preorder : PreOrder same_fstab.
Proof.
  split.
  - intros w. reflexivity.
  - intros a b c Hab Hbc. unfold same_fstab in *. congruence.
Qed.

#[local] Instance only_asked_preorder : PreOrder only_asked.
Proof.
  split.
  - intros w. repeat split. exists []. split; [now rewrite app_nil_r | constructor].
  - intros a b c (F1 & B1 & C1 & e1 & T1 & Q1) (F2 & B2 & C2 & e2 & T2 & Q2).
    repeat split; try congruence.
    exists (e1 ++ e2)%list. split.
    + rewrite T2, T1. now rewrite app_assoc.
    + apply Forall_app. now split.
Qed.

(** *** Worlds after calls that change no file *)

Lemma logs_nil (w : World) : logs [] w = w.
Proof. destruct w. unfold logs. simpl. now rewrite app_nil_r. Qed.

Lemma logs_one (e : Event) (w : World) : logs [e] w = log e w.
Proof. reflexivity. Qed.

Lemma logs_app (e1 e2 : list Event) (w : World) :
  logs (e1 ++ e2) w = logs e2 (logs e1 w).
Proof. unfold logs. simpl. now rewrite app_assoc. Qed.

Lemma logs_cons (e : Event) (evs : list Event) (w : World) :
  logs (e :: evs) w = logs evs (log e w).
Proof. apply (logs_app [e] evs w). Qed.

Lemma log_logs (e : Event) (evs : list Event) (w : World) :
  log e (logs evs w) = logs (evs ++ [e]) w.
Proof. rewrite logs_app. reflexivity. Qed.

Lemma log_log (a b : Event) (w : World) : log b (log a w) = logs [a; b] w.
Proof. apply (log_logs b [a] w). Qed.

Lemma ran_logs (evs : list Event) (w w' : World) :
  ran evs w w' <-> w' = logs evs w.
Proof.
  unfold ran, unchanged_files, logs. split.
  - intros [(F & B & C) T]. destruct w'. simpl in *. now subst.
  - intros ->. simpl. auto.
Qed.

(* ================================================================== *)
(** ** What each step leaves alone *)
(* ================================================================== *)

Create HintDb frame.

Lemma fstab_tool_effect (argv : list string) (w : World) :
  fstab (tool_effect argv w) = fstab w.
Proof.
  unfold tool_effect.
  destruct argv as [|a [|b [|c [|d l]]]]; try reflexivity.
  destruct ((a =? "cp") && (b =? "/etc/fstab") && (c =? "/etc/fstab.backup"));
    reflexivity.
Qed.

Lemma trace_tool_effect (argv : list string) (w : World) :
  trace (tool_effect argv w) = trace w.
Proof.
  unfold tool_effect.
  destruct argv as [|a [|b [|c [|d l]]]]; try reflexivity.
  destruct ((a =? "cp") && (b =? "/etc/fstab") && (c =? "/etc/fstab.backup"));
    reflexivity.
Qed.

Section Steps.

Variable env : Env.

Lemma run_command_same (argv : list string) :
  stays same_fstab (run_command env argv).
Proof.
  intros w. unfold run_command, same_fstab.
  destruct (Z.eqb _ 0); simpl; [now rewrite fstab_tool_effect | reflexivity].
Qed.

Lemma run_command_to_mdadm_conf_same (argv : list string) :
  stays same_fstab (run_command_to_mdadm_conf env argv).
Proof.
  intros w. unfold run_command_to_mdadm_conf, same_fstab.
  destruct (Z.eqb _ 0); reflexivity.
Qed.

Lemma confirm_same (prompt : string) : stays same_fstab (confirm env prompt).
Proof. intros w. reflexivity. Qed.

Lemma makedirs_same (path : string) : stays same_fstab (makedirs env path).
Proof.
  intros w. unfold makedirs, same_fstab.
  destruct (makedirs_ok env w path); reflexivity.
Qed.

Lemma read_fstab_lines_same : stays same_fstab read_fstab_lines.
Proof. intros w. reflexivity. Qed.

Hint Resolve run_command_same run_command_to_mdadm_conf_same confirm_same
  makedirs_same read_fstab_lines_same : frame.

Lemma _check_disk_health_same (disk : string) :
  stays same_fstab (_check_disk_health env disk).
Proof. unfold _check_disk_health. frame; auto with frame. Qed.

Lemma read_sizes_same (disks : list string) :
  stays same_fstab (read_sizes env disks).
Proof.
  induction disks as [|disk rest IH]; simpl; frame; auto with frame.
Qed.

Hint Resolve _check_disk_health_same read_sizes_same : frame.

Lemma _check_disk_sizes_same (disks : list string) :
  stays same_fstab (_check_disk_sizes env disks).
Proof. unfold _check_disk_sizes. frame; auto with frame. Qed.

Lemma health_checks_same (disks : list string) :
  stays same_fstab (health_checks env disks).
Proof.
  induction disks as [|disk rest IH]; simpl; frame; auto with frame.
Qed.

Lemma _create_partition_same (disk : string) :
  stays same_fstab (_create_partition env disk).
Proof. unfold _create_partition. frame; auto with frame. Qed.

Lemma _create_raid_array_same (disks : list string) (level : Z)
    (device_name : string) :
  stays same_fstab (_create_raid_array env disks level device_name).
Proof. unfold _create_raid_array. frame; auto with frame. Qed.

Lemma _create_filesystem_same (device_name : string) :
  stays same_fstab (_create_filesystem env device_name).
Proof. unfold _create_filesystem. frame; auto with frame. Qed.

Lemma _mount_raid_same (device_name mount_point : string) :
  stays same_fstab (_mount_raid env device_name mount_point).
Proof. unfold _mount_raid. frame; auto with frame. Qed.

Lemma _update_system_same : stays same_fstab (_update_system env).
Proof. unfold _update_system. frame; auto with frame. Qed.

Lemma _get_raid_level_same (device_name : string) :
  stays same_fstab (_get_raid_level env device_name).
Proof. unfold _get_raid_level. frame; auto with frame. Qed.

Lemma _check_raid_status_same (device_name : string) :
  stays same_fstab (_check_raid_status env device_name).
Proof. unfold _check_raid_status. frame; auto with frame. Qed.

Lemma _get_mount_info_same (device_name : string) :
  stays same_fstab (_get_mount_info env device_name).
Proof. unfold _get_mount_info. frame; auto with frame. Qed.

Lemma _get_raid_disks_same (device_name : string) :
  stays same_fstab (_get_raid_disks env device_name).
Proof. unfold _get_raid_disks. frame; auto with frame. Qed.

End Steps.

#[export] Hint Resolve run_command_same run_command_to_mdadm_conf_same
  confirm_same makedirs_same read_fstab_lines_same _check_disk_health_same
  read_sizes_same _check_disk_sizes_same health_checks_same
  _create_partition_same _create_raid_array_same _create_filesystem_same
  _mount_raid_same _update_system_same _get_raid_level_same
  _check_raid_status_same _get_mount_info_same _get_raid_disks_same : frame.

(* ================================================================== *)
(** ** setup_raid: the checks before anything is changed *)
(* ================================================================== *)

Lemma query_only_not_mutating (e : Event) :
  query_only e = true -> mutating e = false.
Proof.
  destruct e as [argv| | |]; simpl; try discriminate; try reflexivity.
  destruct argv as [|prog [|flag [|d [|x l]]]]; try discriminate.
  intros H. apply andb_true_iff in H. destruct H as [Hp _].
  apply String.eqb_eq in Hp. subst prog. reflexivity.
Qed.

Lemma only_asked_not_mutating (w w' : World) :
  only_asked w w' ->
  exists evs, trace w' = (trace w ++ evs)%list
              /\ Forall (fun e => mutating e = false) evs.
Proof.
  intros (_ & _ & _ & evs & T & Q). exists evs. split; [exact T|].
  eapply Forall_impl; [|exact Q]. apply query_only_not_mutating.
Qed.

Section SetupChecks.

Variable env : Env.

Lemma confirm_only_asked (prompt : string) :
  stays only_asked (confirm env prompt).
Proof.
  intros w. unfold confirm, only_asked. simpl. repeat split.
  exists [Ask prompt]. split; [reflexivity | now repeat constructor].
Qed.

Lemma smartctl_only_asked (disk : string) :
  stays only_asked (run_command env ["smartctl"; "-H"; disk]).
Proof.
  intros w. unfold run_command, only_asked.
  destruct (Z.eqb _ 0); simpl; repeat split;
    exists [Run ["smartctl"; "-H"; disk]];
    (split; [reflexivity | now repeat constructor]).
Qed.

Lemma _check_disk_health_only_asked (disk : string) :
  stays only_asked (_check_disk_health env disk).
Proof.
  unfold _check_disk_health. frame. apply smartctl_only_asked.
Qed.

Lemma health_checks_only_asked (disks : list string) :
  stays only_asked (health_checks env disks).
Proof.
  induction disks as [|disk rest IH]; simpl; frame;
    auto using smartctl_only_asked, confirm_only_asked.
Qed.

Lemma _check_disk_health_total (disk : string) :
  total (_check_disk_health env disk).
Proof.
  intros w. unfold _check_disk_health, try_except, bind, run_command, ret.
  destruct (Z.eqb _ 0); simpl; eauto.
Qed.

Lemma health_checks_total (disks : list string) :
  total (health_checks env disks).
Proof.
  induction disks as [|disk rest IH]; intros w; simpl.
  - now exists true.
  - unfold bind at 1.
    destruct (_check_disk_health_total disk w) as [ok Hok].
    destruct (_check_disk_health env disk w) as [r w1]. simpl in Hok. subst r.
    destruct ok; simpl.
    + apply IH.
    + unfold bind, confirm. destruct (answer env w1 _); simpl.
      * apply IH.
      * now exists false.
Qed.

End SetupChecks.

(** C4. When the user declines the first question of [setup_raid] (the
    confirmation that all data on the disks will be destroyed), the
    operation returns [False]; the only thing it has done is to ask: no
    file of the system has changed and the question is the one new entry
    of the log, so no partitioning, array, formatting, mounting or
    table-writing call was made. *)
Theorem setup_raid_declined (env : Env) (disks : list string) (level : Z)
    (device_name mount_point : string) (w : World) :
  answer env w "계속하시겠습니까?" = false ->
  let r := setup_raid env disks level device_name mount_point w in
  fst r = Ok false
  /\ fstab (snd r) = fstab w
  /\ fstab_backup (snd r) = fstab_backup w
  /\ mdadm_conf (snd r) = mdadm_conf w
  /\ trace (snd r) = (trace w ++ [Ask "계속하시겠습니까?"])%list
  /\ Forall (fun e => mutating e = false) [Ask "계속하시겠습니까?"].
Proof.
  intros H. unfold setup_raid, try_except, bind, confirm. rewrite H. simpl.
  repeat split. now repeat constructor.
Qed.

Lemma setup_raid_declined_witness :
  let r := setup_raid (Scenario.env false) ["/dev/sda"; "/dev/sdb"] 1
             "/dev/md0" "/mnt/raid" Scenario.mounted in
  fst r = Ok false
  /\ fstab (snd r) = fstab Scenario.mounted
  /\ fstab_backup (snd r) = fstab_backup Scenario.mounted
  /\ mdadm_conf (snd r) = mdadm_conf Scenario.mounted
  /\ trace (snd r) = (trace Scenario.mounted ++ [Ask "계속하시겠습니까?"])%list
  /\ Forall (fun e => mutating e = false) [Ask "계속하시겠습니까?"].
Proof.
  apply (@setup_raid_declined (Scenario.env false)). reflexivity.
Defined.

(** C3. With a level of the table {0:2, 1:2, 5:3, 6:4} and fewer disks
    than the table asks for, [setup_raid] returns [False], leaves every
    file as it was, and has only asked: each new entry of the log is a
    question to the user or a SMART health query, none is a partitioning,
    array-creation, formatting or mount call. *)
Theorem setup_raid_too_few_disks (env : Env) (disks : list string)
    (level need : Z) (device_name mount_point : string) (w : World) :
  In (level, need) min_disks ->
  (Z.of_nat (length disks) < need)%Z ->
  let r := setup_raid env disks level device_name mount_point w in
  fst r = Ok false
  /\ only_asked w (snd r)
  /\ exists evs, trace (snd r) = (trace w ++ evs)%list
                 /\ Forall (fun e => mutating e = false) evs.
Proof.
  intros Hin Hlt.
  assert (Hneed : getitem min_disks level = Ok need).
  { unfold min_disks in *. simpl in Hin.
    destruct Hin as [E|[E|[E|[E|[]]]]]; inversion E; subst; reflexivity. }
  assert (G : exists w',
             setup_raid env disks level device_name mount_point w
             = (Ok false, w') /\ only_asked w w').
  { unfold setup_raid, try_except. unfold bind at 1.
    pose proof (confirm_only_asked env "계속하시겠습니까?" w) as Hc.
    destruct (confirm env "계속하시겠습니까?" w) as [[go|e] w1] eqn:Ec;
      [|discriminate Ec].
    simpl in Hc. destruct go; cbn [negb].
    - unfold bind at 1.
      pose proof (health_checks_only_asked env disks w1) as Hh.
      destruct (health_checks_total env disks w1) as [ok Hok].
      destruct (health_checks env disks w1) as [r w2].
      simpl in Hh, Hok. subst r.
      assert (Hw : only_asked w w2) by (etransitivity; eassumption).
      exists w2. destruct ok; cbn [negb].
      + unfold bind, lift. rewrite Hneed.
        apply Z.ltb_lt in Hlt. rewrite Hlt. now split.
      + now split.
    - exists w1. now split. }
  destruct G as (w' & -> & G2). cbv zeta. simpl.
  split; [reflexivity|]. split; [exact G2|].
  now apply only_asked_not_mutating.
Qed.

Lemma setup_raid_too_few_disks_witness :
  let r := setup_raid (Scenario.env true) ["/dev/sda"] 1
             "/dev/md0" "/mnt/raid" Scenario.fresh in
  fst r = Ok false
  /\ only_asked Scenario.fresh (snd r)
  /\ exists evs, trace (snd r) = (trace Scenario.fresh ++ evs)%list
                 /\ Forall (fun e => mutating e = false) evs.
Proof.
  apply (@setup_raid_too_few_disks (Scenario.env true) ["/dev/sda"] 1 2).
  - simpl. auto.
  - simpl. lia.
Defined.

(* ================================================================== *)
(** ** The mount table: building, appending and removing entries *)
(* ================================================================== *)

(** C5. The line built for the table is
    [UUID=<uuid> <mount point> ext4 <options> 0 0]; its option string is
    ["defaults,nofail,x-systemd.device-timeout=5"] for the levels 1, 5
    and 6 and ["defaults,nofail,x-systemd.device-timeout=3"] for level 0
    and every other level. *)
Theorem fstab_entry_options (uuid mount_point : string) (level : Z) :
  fstab_entry uuid mount_point level
  = "UUID=" ++ uuid ++ " " ++ mount_point ++ " ext4 "
      ++ mount_options level ++ " 0 0" ++ nl
  /\ (level = 1%Z \/ level = 5%Z \/ level = 6%Z ->
      mount_options level = "defaults,nofail,x-systemd.device-timeout=5")
  /\ (level <> 1%Z /\ level <> 5%Z /\ level <> 6%Z ->
      mount_options level = "defaults,nofail,x-systemd.device-timeout=3").
Proof.
  split; [reflexivity|]. unfold mount_options. split.
  - intros [->|[->| ->]]; reflexivity.
  - intros (H1 & H5 & H6). simpl.
    apply Z.eqb_neq in H1, H5, H6. rewrite H1, H5, H6. reflexivity.
Qed.

Lemma fstab_entry_options_witness :
  mount_options 1 = "defaults,nofail,x-systemd.device-timeout=5"
  /\ mount_options 0 = "defaults,nofail,x-systemd.device-timeout=3"
  /\ mount_options 4 = "defaults,nofail,x-systemd.device-timeout=3".
Proof.
  split; [|split].
  - apply (fstab_entry_options "abcd-1234" "/mnt/raid" 1). now left.
  - apply (fstab_entry_options "abcd-1234" "/mnt/raid" 0). repeat split; lia.
  - apply (fstab_entry_options "abcd-1234" "/mnt/raid" 4). repeat split; lia.
Defined.

Section Table.

Variable env : Env.

Lemma run_command_ok (argv : list string) (w w1 : World) (out : string) :
  run_command env argv w = (Ok out, w1) ->
  returncode (tool env w argv) = 0%Z
  /\ out = stdout (tool env w argv)
  /\ w1 = tool_effect argv (log (Run argv) w).
Proof.
  unfold run_command. destruct (Z.eqb _ 0) eqn:E; intros H; inversion H.
  apply Z.eqb_eq in E. auto.
Qed.

Lemma run_command_run (argv : list string) (w : World) :
  returncode (tool env w argv) = 0%Z ->
  run_command env argv w
  = (Ok (stdout (tool env w argv)), tool_effect argv (log (Run argv) w)).
Proof. unfold run_command. intros ->. reflexivity. Qed.


Lemma remove_entries_for_uuid_run (uuid : string) (w : World) :
  remove_entries_for_uuid uuid w
  = (Ok tt, set_fstab (without_uuid uuid (fstab w)) w).
Proof. reflexivity. Qed.





End Table.




(** Without a final line end the appended entry joins the last line of
    the table, and the removal takes that line with it. *)
Example append_then_remove_joined_line :
  let w := mkWorld "/dev/sda1 / ext4 defaults 0 1" None "" [] in
  let entry := fstab_entry "abcd-1234" "/mnt/raid" 1 in
  let w1 := snd (append_entry (Scenario.env true) entry w) in
  length (readlines (fstab w1)) = 1
  /\ fstab (snd (remove_entries_for_uuid "abcd-1234" w1))
     = "".
Proof. split; reflexivity. Qed.

(** A carriage return in the mount point ends a line when the table is
    read: the entry is read as two lines, and the removal keeps the
    second, which does not contain the UUID. *)
Example append_then_remove_carriage_return :
  let w := mkWorld "" None "" [] in
  let entry := fstab_entry "abcd-1234" (String "/" (String CR "x")) 1 in
  let w1 := snd (append_entry (Scenario.env true) entry w) in
  readlines (fstab w1)
  = ["UUID=abcd-1234 /" ++ nl;
     "x ext4 defaults,nofail,x-systemd.device-timeout=5 0 0" ++ nl]
  /\ fstab (snd (remove_entries_for_uuid "abcd-1234" w1))
     = "x ext4 defaults,nofail,x-systemd.device-timeout=5 0 0" ++ nl.
Proof. split; reflexivity. Qed.

(** A table with the line ends of another system comes back with line
    feeds. *)
Example append_then_remove_crlf_table :
  let w := mkWorld (String "a" (String CR nl)) None "" [] in
  let entry := fstab_entry "abcd-1234" "/mnt/raid" 1 in
  let w1 := snd (append_entry (Scenario.env true) entry w) in
  fstab (snd (remove_entries_for_uuid "abcd-1234" w1)) = "a" ++ nl.
Proof. reflexivity. Qed.


Example remove_empty_uuid_two_lines :
  let w := mkWorld (fstab_entry "abcd-1234" "/mnt/raid" 1
                    ++ fstab_entry "ffff-0000" "/mnt/data" 0) None "" [] in
  length (readlines (fstab w)) = 2
  /\ fstab (snd (remove_entries_for_uuid "" w)) = "".
Proof. split; reflexivity. Qed.

(* ================================================================== *)
(** ** Disk sizes and the recommended level *)
(* ================================================================== *)

Lemma all_identical_cons (x : Z) (xs : list Z) :
  all_identical (x :: xs) <-> Forall (eq x) xs.
Proof.
  unfold all_identical. split.
  - intros H. apply Forall_forall. intros y Hy. apply H; simpl; auto.
  - intros H a b Ha Hb. rewrite Forall_forall in H.
    assert (E : forall c, In c (x :: xs) -> c = x).
    { intros c [<-|Hc]; [reflexivity | symmetry; now apply H]. }
    rewrite (E a Ha), (E b Hb). reflexivity.
Qed.

Lemma nodup_all_same (x : Z) (xs : list Z) :
  Forall (eq x) xs -> nodup Z.eq_dec (x :: xs) = [x].
Proof.
  induction xs as [|y ys IH]; intros H.
  - reflexivity.
  - inversion H as [|y' ys' Exy Hys]. subst y' ys' y.
    specialize (IH Hys).
    change (nodup Z.eq_dec (x :: x :: ys))
      with (if in_dec Z.eq_dec x (x :: ys)
            then nodup Z.eq_dec (x :: ys)
            else x :: nodup Z.eq_dec (x :: ys)).
    destruct (in_dec Z.eq_dec x (x :: ys)) as [_|N].
    + exact IH.
    + exfalso. apply N. now left.
Qed.

(** [len(set(sizes)) == 1]: there is a size, and all sizes are that one. *)
Lemma len_set_one (xs : list Z) :
  len_set xs = 1 <-> xs <> [] /\ all_identical xs.
Proof.
  unfold len_set. split.
  - intros H. destruct xs as [|x xs]; [discriminate H|].
    split; [discriminate|].
    destruct (nodup Z.eq_dec (x :: xs)) as [|c [|d l]] eqn:E; try discriminate H.
    intros a b Ha Hb.
    apply (nodup_In Z.eq_dec) in Ha, Hb. rewrite E in Ha, Hb.
    destruct Ha as [<-|[]], Hb as [<-|[]]. reflexivity.
  - intros [NE H]. destruct xs as [|x xs]; [now elim NE|].
    apply all_identical_cons in H. now rewrite nodup_all_same.
Qed.

Lemma fold_min_lower (rest : list Z) (x : Z) :
  (fold_left Z.min rest x <= x)%Z
  /\ forall y, In y rest -> (fold_left Z.min rest x <= y)%Z.
Proof.
  revert x. induction rest as [|z rest IH]; intros x; simpl.
  - split; [lia | intros y []].
  - destruct (IH (Z.min x z)) as [H1 H2]. split; [lia|].
    intros y [<-|Hy]; [lia | now apply H2].
Qed.

Lemma fold_max_upper (rest : list Z) (x : Z) :
  (x <= fold_left Z.max rest x)%Z
  /\ forall y, In y rest -> (y <= fold_left Z.max rest x)%Z.
Proof.
  revert x. induction rest as [|z rest IH]; intros x; simpl.
  - split; [lia | intros y []].
  - destruct (IH (Z.max x z)) as [H1 H2]. split; [lia|].
    intros y [<-|Hy]; [lia | now apply H2].
Qed.

Lemma fold_same (f : Z -> Z -> Z) (rest : list Z) (x : Z) :
  f x x = x -> Forall (eq x) rest -> fold_left f rest x = x.
Proof.
  intros Hf H. induction H as [|y ys <- _ IH]; simpl.
  - reflexivity.
  - now rewrite Hf.
Qed.

(** [min(sizes) == max(sizes)] on a list that is not empty. *)
Lemma min_is_max (x : Z) (rest : list Z) :
  fold_left Z.min rest x = fold_left Z.max rest x <-> all_identical (x :: rest).
Proof.
  split.
  - intros E. apply all_identical_cons, Forall_forall. intros y Hy.
    destruct (fold_min_lower rest x) as [L1 L2].
    destruct (fold_max_upper rest x) as [U1 U2].
    specialize (L2 y Hy). specialize (U2 y Hy). lia.
  - intros H. apply all_identical_cons in H.
    rewrite (fold_same Z.min), (fold_same Z.max); auto using Z.min_id, Z.max_id.
Qed.

(** C8, as the code has it: 2 disks give level 1, 3 disks level 5, 4
    disks or more give level 6 when the list of sizes is not empty and
    all its sizes are equal and level 5 when they are not all equal, and
    0 or 1 disk gives level 0.  With 4 disks or more and an empty list of
    sizes the call raises ValueError. *)
Theorem recommend_raid_level_table (num_disks : Z) (disk_sizes : list Z) :
  (num_disks = 2%Z -> recommend_raid_level num_disks disk_sizes = Ok 1%Z)
  /\ (num_disks = 3%Z -> recommend_raid_level num_disks disk_sizes = Ok 5%Z)
  /\ ((4 <= num_disks)%Z -> disk_sizes <> [] -> all_identical disk_sizes ->
      recommend_raid_level num_disks disk_sizes = Ok 6%Z)
  /\ ((4 <= num_disks)%Z -> ~ all_identical disk_sizes ->
      recommend_raid_level num_disks disk_sizes = Ok 5%Z)
  /\ (num_disks = 0%Z \/ num_disks = 1%Z ->
      recommend_raid_level num_disks disk_sizes = Ok 0%Z)
  /\ ((4 <= num_disks)%Z -> disk_sizes = [] ->
      recommend_raid_level num_disks disk_sizes = Raise ValueError).
Proof.
  assert (G : (4 <= num_disks)%Z ->
              recommend_raid_level num_disks disk_sizes
              = match py_min disk_sizes, py_max disk_sizes with
                | Ok lo, Ok hi => if Z.eqb lo hi then Ok 6%Z else Ok 5%Z
                | Raise e, _ => Raise e
                | _, Raise e => Raise e
                end).
  { intros H. unfold recommend_raid_level.
    destruct (Z.eqb_spec num_disks 2); [lia|].
    destruct (Z.eqb_spec num_disks 3); [lia|].
    destruct (Z.leb_spec 4 num_disks); [|lia].
    destruct (py_min disk_sizes); reflexivity. }
  repeat split.
  - intros ->. reflexivity.
  - intros ->. reflexivity.
  - intros H NE Hall. rewrite (G H).
    destruct disk_sizes as [|x rest]; [now elim NE|]. simpl.
    apply min_is_max in Hall. rewrite Hall, Z.eqb_refl. reflexivity.
  - intros H Hnot. rewrite (G H).
    destruct disk_sizes as [|x rest].
    + exfalso. apply Hnot. intros a b [].
    + simpl. destruct (Z.eqb_spec (fold_left Z.min rest x)
                                  (fold_left Z.max rest x)) as [E|_].
      * exfalso. apply Hnot. now apply min_is_max.
      * reflexivity.
  - intros [-> | ->]; reflexivity.
  - intros H ->. rewrite (G H). reflexivity.
Qed.

Lemma recommend_raid_level_table_witness :
  recommend_raid_level 2 [100; 100]%Z = Ok 1%Z
  /\ recommend_raid_level 4 [100; 100; 100; 100]%Z = Ok 6%Z
  /\ recommend_raid_level 4 [100; 50; 100; 100]%Z = Ok 5%Z
  /\ recommend_raid_level 1 [100]%Z = Ok 0%Z.
Proof.
  split; [|split; [|split]].
  - now apply (recommend_raid_level_table 2 [100; 100]%Z).
  - apply (recommend_raid_level_table 4 [100; 100; 100; 100]%Z).
    + lia.
    + discriminate.
    + intros a b Ha Hb. simpl in Ha, Hb. intuition congruence.
  - apply (recommend_raid_level_table 4 [100; 50; 100; 100]%Z).
    + lia.
    + intros H. specialize (H 100%Z 50%Z). simpl in H.
      assert (100 = 50)%Z by (apply H; auto). lia.
  - apply (recommend_raid_level_table 1 [100]%Z). now right.
Defined.

(** C8 fails as it is stated: with 4 disks and an empty list of sizes all
    listed sizes are equal, and the call does not return 6, it raises. *)
Lemma recommend_raid_level_no_sizes :
  (4 <= 4)%Z
  /\ all_identical []
  /\ recommend_raid_level 4 [] = Raise ValueError
  /\ recommend_raid_level 4 [] <> Ok 6%Z.
Proof.
  split; [lia|]. split; [intros a b []|]. split; [reflexivity | discriminate].
Qed.

Section DiskSizes.

Variable env : Env.

(** A query that succeeds: the number it gives is recorded, and the loop
    goes on with the next disk. *)
Lemma read_sizes_step (disk : string) (rest : list string) (w : World) (n : Z) :
  size_at env w disk = Some n ->
  read_sizes env (disk :: rest) w
  = (sizes <- read_sizes env rest ;; ret (n :: sizes))
      (log (blockdev_call disk) w).
Proof.
  unfold size_at. intros H. cbn [read_sizes].
  unfold bind at 1, run_command.
  destruct (Z.eqb (returncode (tool env w ["blockdev"; "--getsize64"; disk])) 0);
    [|discriminate H].
  cbn [tool_effect]. unfold bind at 1, lift, int. rewrite H. reflexivity.
Qed.

(** A query that fails ends the loop. *)
Lemma read_sizes_stop (disk : string) (rest : list string) (w : World) :
  size_at env w disk = None ->
  exists e, read_sizes env (disk :: rest) w
            = (Raise e, log (blockdev_call disk) w).
Proof.
  unfold size_at. intros H. cbn [read_sizes].
  unfold bind at 1, run_command.
  destruct (Z.eqb (returncode (tool env w ["blockdev"; "--getsize64"; disk])) 0).
  - cbn [tool_effect]. unfold bind at 1, lift, int. rewrite H. eauto.
  - eauto.
Qed.

Lemma size_world_0 (disks : list string) (w : World) :
  size_world disks w 0 = w.
Proof. unfold size_world. cbn [firstn map]. apply logs_nil. Qed.

Lemma size_world_S (disk : string) (rest : list string) (w : World) (i : nat) :
  size_world (disk :: rest) w (S i)
  = size_world rest (log (blockdev_call disk) w) i.
Proof. unfold size_world. cbn [firstn map]. apply logs_cons. Qed.

(** What the loop leaves: either every query succeeds, and the sizes are
    the numbers reported, in the order of the disks; or the loop stops at
    the first query that fails. *)
Lemma read_sizes_outcome (disks : list string) (w : World) :
  (exists sizes,
      read_sizes env disks w = (Ok sizes, logs (map blockdev_call disks) w)
      /\ length sizes = length disks
      /\ forall i, i < length disks ->
           size_of env disks w i = Some (nth i sizes 0%Z))
  \/ (exists i e,
        i < length disks
        /\ read_sizes env disks w
           = (Raise e, logs (map blockdev_call (firstn (S i) disks)) w)
        /\ size_of env disks w i = None
        /\ forall j, j < i -> size_of env disks w j <> None).
Proof.
  unfold size_of. revert w. induction disks as [|disk rest IH]; intros w.
  - left. exists []. cbn [map]. rewrite logs_nil.
    split; [reflexivity|]. split; [reflexivity|]. intros i Hi. inversion Hi.
  - destruct (size_at env w disk) as [n|] eqn:E.
    + rewrite (@read_sizes_step disk rest w n E).
      destruct (IH (log (blockdev_call disk) w))
        as [(sizes & Hr & Hl & Hs) | (i & e & Hi & Hr & Hn & Hb)].
      * left. exists (n :: sizes). unfold bind. rewrite Hr.
        cbn [map]. rewrite logs_cons.
        split; [reflexivity|]. split; [simpl; now rewrite Hl|].
        intros [|i] Hi.
        -- rewrite size_world_0. exact E.
        -- rewrite size_world_S. cbn [nth]. apply Hs. simpl in Hi. lia.
      * right. exists (S i), e. unfold bind. rewrite Hr.
        split; [simpl; lia|]. split.
        -- cbn [firstn map]. now rewrite (logs_cons (blockdev_call disk)).
        -- split.
           ++ rewrite size_world_S. exact Hn.
           ++ intros [|j] Hj.
              ** rewrite size_world_0. cbn [nth]. congruence.
              ** rewrite size_world_S. cbn [nth]. apply Hb. lia.
    + right. destruct (@read_sizes_stop disk rest w E) as [e He].
      exists 0, e. split; [simpl; lia|]. split.
      * rewrite He. cbn [firstn map]. reflexivity.
      * split; [now rewrite size_world_0|]. intros j Hj. inversion Hj.
Qed.

Lemma _check_disk_sizes_run (disks : list string) (w : World) :
  _check_disk_sizes env disks w
  = match read_sizes env disks w with
    | (Ok sizes, w') => (Ok (Nat.eqb (len_set sizes) 1), w')
    | (Raise _, w') => (Ok false, w')
    end.
Proof.
  unfold _check_disk_sizes, try_except, bind.
  destruct (read_sizes env disks w) as [[sizes|e] w1]; reflexivity.
Qed.

Lemma all_identical_nth (sizes : list Z) (c : Z) :
  (forall i, i < length sizes -> nth i sizes 0%Z = c) ->
  all_identical sizes.
Proof.
  intros H a b Ha Hb.
  destruct (In_nth _ _ 0%Z Ha) as (i & Hi & <-).
  destruct (In_nth _ _ 0%Z Hb) as (j & Hj & <-).
  now rewrite (H i Hi), (H j Hj).
Qed.

End DiskSizes.

(** C7, as the code has it.  The capacity of a disk is the number that
    what [blockdev --getsize64] prints for it reads as (a query fails
    when the tool exits with an error or prints no number); the disks
    are asked in their order.  For a list of disks that is not empty,
    [_check_disk_sizes] returns [True] exactly when every capacity query
    succeeds and all disks report the same capacity; it returns [False]
    when the query of some disk fails, and it never raises. *)
Theorem check_disk_sizes_uniform (env : Env) (disks : list string) (w : World) :
  disks <> [] ->
  (fst (_check_disk_sizes env disks w) = Ok true
   <-> exists c, forall i, i < length disks ->
         size_at env (size_world disks w i) (nth i disks "") = Some c)
  /\ (forall i, i < length disks ->
        size_at env (size_world disks w i) (nth i disks "") = None ->
        fst (_check_disk_sizes env disks w) = Ok false)
  /\ (exists b, fst (_check_disk_sizes env disks w) = Ok b).
Proof.
  intros NE. rewrite _check_disk_sizes_run.
  destruct (read_sizes_outcome env disks w)
    as [(sizes & Hr & Hl & Hs) | (k & e & Hk & Hr & Hn & Hb)];
    unfold size_of in *; rewrite Hr; cbn [fst].
  - split; [split|split].
    + intros H. inversion H as [H1]. apply Nat.eqb_eq, len_set_one in H1.
      destruct H1 as [_ Hall]. exists (nth 0 sizes 0%Z). intros i Hi.
      rewrite (Hs i Hi). f_equal. apply Hall; apply nth_In; lia.
    + intros [c Hc]. f_equal. apply Nat.eqb_eq, len_set_one. split.
      * destruct sizes; [|discriminate].
        destruct disks; [now elim NE | discriminate Hl].
      * apply all_identical_nth with (c := c). intros i Hi.
        rewrite Hl in Hi. specialize (Hc i Hi). rewrite (Hs i Hi) in Hc.
        congruence.
    + intros i Hi Hnone. rewrite (Hs i Hi) in Hnone. discriminate Hnone.
    + eauto.
  - split; [split|split].
    + discriminate.
    + intros [c Hc]. rewrite (Hc k Hk) in Hn. discriminate Hn.
    + reflexivity.
    + eauto.
Qed.

Lemma check_disk_sizes_uniform_witness :
  (fst (_check_disk_sizes (Scenario.env true) ["/dev/sda"; "/dev/sdb"]
          Scenario.fresh) = Ok true
   <-> exists c, forall i, i < 2 ->
         size_at (Scenario.env true)
           (size_world ["/dev/sda"; "/dev/sdb"] Scenario.fresh i)
           (nth i ["/dev/sda"; "/dev/sdb"] "") = Some c)
  /\ fst (_check_disk_sizes (Scenario.env true) ["/dev/sda"; "/dev/sdb"]
            Scenario.fresh) = Ok true.
Proof.
  split.
  - apply (@check_disk_sizes_uniform (Scenario.env true)
             ["/dev/sda"; "/dev/sdb"] Scenario.fresh).
    discriminate.
  - reflexivity.
Defined.

(** C7 fails as it is stated: with no disk at all no query fails and all
    the capacities read (there is none) are the same, and the check
    returns [False]. *)
Lemma check_disk_sizes_no_disks :
  fst (read_sizes (Scenario.env true) [] Scenario.fresh) = Ok []
  /\ all_identical []
  /\ fst (_check_disk_sizes (Scenario.env true) [] Scenario.fresh) = Ok false
  /\ fst (_check_disk_sizes (Scenario.env true) [] Scenario.fresh) <> Ok true.
Proof.
  split; [reflexivity|]. split; [intros a b []|].
  split; [reflexivity | discriminate].
Qed.

(** Two disks of different capacities: every query succeeds, and the
    check returns [False]. *)
Example check_disk_sizes_differ :
  let env := Scenario.named_sizes in
  let disks := ["1000"; "2000"] in
  size_at env (size_world disks Scenario.fresh 0) "1000" = Some 1000%Z
  /\ size_at env (size_world disks Scenario.fresh 1) "2000" = Some 2000%Z
  /\ fst (_check_disk_sizes env disks Scenario.fresh) = Ok false.
Proof. repeat split. Qed.

(** A disk that prints no number: the check returns [False] although
    the two numbers read are the same. *)
Example check_disk_sizes_no_number :
  let env := Scenario.named_sizes in
  let disks := ["1000"; "x"; "1000"] in
  size_at env (size_world disks Scenario.fresh 1) "x" = None
  /\ fst (_check_disk_sizes env disks Scenario.fresh) = Ok false.
Proof. repeat split. Qed.

(* ================================================================== *)
(** ** The level of an array *)
(* ================================================================== *)

Lemma raid_level_scan_passed_over (pre rest : list string) :
  Forall passed_over pre ->
  raid_level_scan (pre ++ rest) = raid_level_scan rest.
Proof.
  induction 1 as [|line pre Hline _ IH]; [reflexivity|].
  change ((line :: pre) ++ rest)%list with (line :: (pre ++ rest))%list.
  cbn [raid_level_scan]. destruct Hline as [H|(v & Hv & H0 & H1 & H5 & H6)].
  - now rewrite H.
  - unfold level_value in Hv.
    destruct (index (split ":" line) 1) as [field|e]; [|discriminate].
    inversion Hv as [E]. cbv zeta. rewrite E, H0, H1, H5, H6.
    destruct (contains "Raid Level" line); exact IH.
Qed.

(** The scan of a text in which no "Raid Level" line names a level ends
    with level 0, or fails on a line without a colon. *)
Lemma raid_level_scan_no_match (lines : list string) :
  (forall line v, In line lines -> contains "Raid Level" line = true ->
                  level_value line = Some v -> names_no_level v) ->
  raid_level_scan lines = Ok 0%Z \/ raid_level_scan lines = Raise IndexError.
Proof.
  induction lines as [|line rest IH]; intros H; [now left|].
  assert (IH' : raid_level_scan rest = Ok 0%Z
                \/ raid_level_scan rest = Raise IndexError).
  { apply IH. intros l v Hl. apply (H l v). now right. }
  clear IH. cbn [raid_level_scan].
  destruct (contains "Raid Level" line) eqn:RL; [|exact IH'].
  pose proof (H line) as Hl. unfold level_value in Hl.
  destruct (index (split ":" line) 1) as [field|e] eqn:Ei.
  - destruct (Hl _ (or_introl eq_refl) RL eq_refl) as (H0 & H1 & H5 & H6).
    cbv zeta. rewrite H0, H1, H5, H6. exact IH'.
  - right. unfold index in Ei.
    destruct (nth_error (split ":" line) 1); inversion Ei. reflexivity.
Qed.

Lemma _get_raid_level_run (env : Env) (device_name : string) (w : World) :
  fst (_get_raid_level env device_name w)
  = let r := tool env w ["mdadm"; "--detail"; device_name] in
    if Z.eqb (returncode r) 0
    then match raid_level_scan (split LF (stdout r)) with
         | Ok level => Ok level
         | Raise _ => Ok 0%Z
         end
    else Ok 0%Z.
Proof.
  unfold _get_raid_level, try_except, bind, run_command, lift. cbv zeta.
  destruct (Z.eqb _ 0); [|reflexivity].
  destruct (raid_level_scan _); reflexivity.
Qed.

(** C9, as the code has it.  The lines of the detail are read in their
    order, and the first line that contains "Raid Level" and is not
    passed over decides.  A line is passed over when it has a value
    (the text between its first and second colon, stripped, in lower
    case) that names no level.  When the deciding line has no colon, the
    level is 0 (reading its value fails, and the failure is caught),
    whatever the lines after it say; otherwise the level is 0 when its
    value contains "raid0", else 1 when it contains "raid1", else 5 when
    it contains "raid5", else 6 when it contains "raid6".  The level is 0
    when no "Raid Level" line names a level and when the query fails. *)
Theorem get_raid_level_first_match (env : Env) (device_name : string)
    (w : World) :
  let r := tool env w ["mdadm"; "--detail"; device_name] in
  let level := fst (_get_raid_level env device_name w) in
  (returncode r <> 0%Z -> level = Ok 0%Z)
  /\ (returncode r = 0%Z ->
      (forall line v, In line (split LF (stdout r)) ->
                      contains "Raid Level" line = true ->
                      level_value line = Some v -> names_no_level v) ->
      level = Ok 0%Z)
  /\ (forall pre line post,
        returncode r = 0%Z ->
        split LF (stdout r) = (pre ++ line :: post)%list ->
        Forall passed_over pre ->
        contains "Raid Level" line = true ->
        level_value line = None ->
        level = Ok 0%Z)
  /\ (forall pre line post v,
        returncode r = 0%Z ->
        split LF (stdout r) = (pre ++ line :: post)%list ->
        Forall passed_over pre ->
        contains "Raid Level" line = true ->
        level_value line = Some v ->
        (contains "raid0" v = true -> level = Ok 0%Z)
        /\ (contains "raid0" v = false -> contains "raid1" v = true ->
            level = Ok 1%Z)
        /\ (contains "raid0" v = false -> contains "raid1" v = false ->
            contains "raid5" v = true -> level = Ok 5%Z)
        /\ (contains "raid0" v = false -> contains "raid1" v = false ->
            contains "raid5" v = false -> contains "raid6" v = true ->
            level = Ok 6%Z)).
Proof.
  intros r level. unfold level. rewrite _get_raid_level_run. fold r. cbv zeta.
  split; [|split; [|split]].
  - intros H. apply Z.eqb_neq in H. now rewrite H.
  - intros H Hno. apply Z.eqb_eq in H. rewrite H.
    destruct (raid_level_scan_no_match _ Hno) as [-> | ->]; reflexivity.
  - intros pre line post H Hsplit Hpre RL Hv.
    apply Z.eqb_eq in H. rewrite H, Hsplit.
    rewrite (raid_level_scan_passed_over _ Hpre).
    cbn [raid_level_scan]. rewrite RL.
    unfold level_value in Hv.
    destruct (index (split ":" line) 1) as [field|e]; [discriminate|].
    reflexivity.
  - intros pre line post v H Hsplit Hpre RL Hv.
    apply Z.eqb_eq in H. rewrite H, Hsplit.
    rewrite (raid_level_scan_passed_over _ Hpre).
    cbn [raid_level_scan]. rewrite RL.
    unfold level_value in Hv.
    destruct (index (split ":" line) 1) as [field|e]; [|discriminate].
    inversion Hv as [E]. cbv zeta. rewrite E.
    repeat split.
    + now intros ->.
    + now intros -> ->.
    + now intros -> -> ->.
    + now intros -> -> -> ->.
Qed.

Lemma get_raid_level_first_match_witness :
  fst (_get_raid_level
         (Scenario.printing ("/dev/md0:" ++ nl ++
                             "        Raid Level : raid6" ++ nl))
         "/dev/md0" Scenario.fresh) = Ok 6%Z.
Proof.
  apply (@get_raid_level_first_match
           (Scenario.printing ("/dev/md0:" ++ nl ++
                               "        Raid Level : raid6" ++ nl))
           "/dev/md0" Scenario.fresh)
    with (pre := ["/dev/md0:"]) (line := "        Raid Level : raid6")
         (post := [""]) (v := "raid6");
    try reflexivity.
  constructor; [now left | constructor].
Defined.

(** C9 fails as it is stated: in this text a "Raid Level" line has the
    value "raid6", and the level returned is the 1 of the line before
    it, not 6. *)
Lemma get_raid_level_later_line_ignored :
  let text := "        Raid Level : raid1" ++ nl ++
              "        Raid Level : raid6" ++ nl in
  let level := fst (_get_raid_level (Scenario.printing text) "/dev/md0"
                      Scenario.fresh) in
  (exists line v, In line (split LF text)
                  /\ contains "Raid Level" line = true
                  /\ level_value line = Some v
                  /\ contains "raid6" v = true)
  /\ level = Ok 1%Z
  /\ level <> Ok 6%Z.
Proof.
  split; [|split].
  - exists "        Raid Level : raid6", "raid6".
    repeat split. simpl. auto.
  - reflexivity.
  - discriminate.
Qed.

(** A "Raid Level" line without a colon ends the scan with level 0,
    whatever a later line names. *)
Example get_raid_level_no_colon :
  let text := "Raid Level raid1" ++ nl ++ "Raid Level : raid6" ++ nl in
  map level_value (split LF text) = [None; Some "raid6"; None]
  /\ fst (_get_raid_level (Scenario.printing text) "/dev/md0" Scenario.fresh)
     = Ok 0%Z.
Proof. split; reflexivity. Qed.

(** Within one value the order of the tests decides. *)
Example get_raid_level_two_names :
  fst (_get_raid_level
         (Scenario.printing ("Raid Level : raid6 (was raid0)" ++ nl))
         "/dev/md0" Scenario.fresh) = Ok 0%Z.
Proof. reflexivity. Qed.

(* ================================================================== *)
(** ** remount_device: the order of its calls *)
(* ================================================================== *)

#[local] Instance extends_preorder : PreOrder extends.
Proof.
  split.
  - intros w. exists []. now rewrite app_nil_r.
  - intros a b c [e1 H1] [e2 H2]. exists (e1 ++ e2)%list.
    now rewrite H2, H1, app_assoc.
Qed.

Lemma try_except_bind_run {A B} (m : M A) (k : A -> M B) (h : Exn -> M B)
    (w w1 : World) (a : A) :
  m w = (Ok a, w1) -> try_except (bind m k) h w = try_except (k a) h w1.
Proof. unfold try_except, bind. now intros ->. Qed.

Lemma try_except_bind_raise {A B} (m : M A) (k : A -> M B) (h : Exn -> M B)
    (w w1 : World) (e : Exn) :
  m w = (Raise e, w1) -> try_except (bind m k) h w = h e w1.
Proof. unfold try_except, bind. now intros ->. Qed.

Lemma try_except_bind_bind_run {A B C} (m : M A) (k1 : A -> M B)
    (k2 : B -> M C) (h : Exn -> M C) (w w1 : World) (a : A) :
  m w = (Ok a, w1) ->
  try_except (bind (bind m k1) k2) h w = try_except (bind (k1 a) k2) h w1.
Proof. unfold try_except, bind. now intros ->. Qed.

Section Remount.

Variable env : Env.

Lemma run_command_trace (argv : list string) (w : World) :
  trace (snd (run_command env argv w)) = (trace w ++ [Run argv])%list.
Proof.
  unfold run_command. destruct (Z.eqb _ 0); simpl;
    [now rewrite trace_tool_effect | reflexivity].
Qed.

Lemma run_command_extends (argv : list string) :
  stays extends (run_command env argv).
Proof. intros w. exists [Run argv]. apply run_command_trace. Qed.

Lemma confirm_extends (prompt : string) : stays extends (confirm env prompt).
Proof. intros w. now exists [Ask prompt]. Qed.

Lemma append_fstab_extends (s : string) : stays extends (append_fstab s).
Proof. intros w. exists []. simpl. now rewrite app_nil_r. Qed.

(** What the queries answer, and the world they leave. *)

Lemma run_command_fails (argv : list string) (w : World) :
  returncode (tool env w argv) <> 0%Z ->
  run_command env argv w
  = (Raise (ExternalToolError argv (returncode (tool env w argv))),
     log (Run argv) w).
Proof.
  intros H. unfold run_command. apply Z.eqb_neq in H. now rewrite H.
Qed.

Lemma _get_mount_info_world (device_name : string) (w : World) :
  snd (_get_mount_info env device_name w) = log (Run ["mount"]) w.
Proof.
  unfold _get_mount_info, try_except, bind, lift, ret, run_command.
  destruct (Z.eqb _ 0); [|reflexivity].
  destruct (mount_info_scan _ _); reflexivity.
Qed.

Lemma _check_raid_status_eq (device_name : string) (w : World) :
  _check_raid_status env device_name w
  = (Ok (mkRaidStatus (raid_healthy env device_name w)),
     log (detail_call device_name) w).
Proof.
  unfold raid_healthy, _check_raid_status, try_except, bind, lift, ret,
    run_command.
  destruct (Z.eqb _ 0); [|reflexivity].
  destruct (raid_status_scan _ _ _); reflexivity.
Qed.

Lemma _get_raid_level_eq (device_name : string) (w : World) :
  _get_raid_level env device_name w
  = (Ok (raid_level_at env device_name w), log (detail_call device_name) w).
Proof.
  unfold raid_level_at, _get_raid_level, try_except, bind, lift, ret,
    run_command.
  destruct (Z.eqb _ 0); [|reflexivity].
  destruct (raid_level_scan _); reflexivity.
Qed.

(** The three ways a table update ends: the UUID query fails and
    nothing else is done; the copy to the backup fails and the table is
    not written; or the table has the new entry at its end and the
    backup is the table as it was. *)
Lemma _update_fstab_eq (device_name mount_point : string) (w : World) :
  _update_fstab env device_name mount_point w
  = let blkid := ["blkid"; "-s"; "UUID"; "-o"; "value"; device_name] in
    let cp := ["cp"; "/etc/fstab"; "/etc/fstab.backup"] in
    let w2 := logs [blkid_call device_name; detail_call device_name] w in
    if Z.eqb (returncode (tool env w blkid)) 0 then
      if Z.eqb (returncode (tool env w2 cp)) 0
      then (Ok tt, updated env device_name mount_point w)
      else (Raise (ExternalToolError cp (returncode (tool env w2 cp))),
            logs (update_fstab_calls device_name) w)
    else (Raise (ExternalToolError blkid (returncode (tool env w blkid))),
          log (blkid_call device_name) w).
Proof.
  cbv zeta. unfold _update_fstab, try_except at 1, bind at 1.
  unfold run_command at 1.
  destruct (Z.eqb (returncode (tool env w _)) 0) eqn:Eb; [|reflexivity].
  cbn [tool_effect]. unfold bind at 1. rewrite _get_raid_level_eq.
  unfold append_entry, bind at 1, run_command.
  change (Run ["blkid"; "-s"; "UUID"; "-o"; "value"; device_name])
    with (blkid_call device_name).
  rewrite log_log.
  destruct (Z.eqb (returncode (tool env _ ["cp"; "/etc/fstab"; "/etc/fstab.backup"])) 0)
    eqn:Ec.
  - unfold append_fstab, updated, new_entry, device_uuid, update_fstab_calls,
      logs, log, blkid_call, detail_call.
    cbn. rewrite <- !app_assoc. reflexivity.
  - unfold logs, log, update_fstab_calls, blkid_call, detail_call. cbn.
    rewrite <- !app_assoc. reflexivity.
Qed.

Lemma _update_fstab_ok (device_name mount_point : string) (w w' : World)
    (o : unit) :
  _update_fstab env device_name mount_point w = (Ok o, w') ->
  uuid_known env device_name w
  /\ backup_succeeds env device_name w
  /\ w' = updated env device_name mount_point w.
Proof.
  rewrite _update_fstab_eq. cbv zeta. unfold uuid_known, backup_succeeds.
  destruct (Z.eqb_spec
              (returncode (tool env w ["blkid"; "-s"; "UUID"; "-o"; "value"; device_name]))
              0) as [Eb|Eb]; [|discriminate].
  destruct (Z.eqb_spec
              (returncode
                 (tool env (logs [blkid_call device_name; detail_call device_name] w)
                    ["cp"; "/etc/fstab"; "/etc/fstab.backup"]))
              0) as [Ec|Ec]; [|discriminate].
  intros H. inversion H. auto.
Qed.

End Remount.

(** C2, as the code has it.  For a device whose path starts with
    /dev/md and that has live mount info, [remount_device] unmounts
    first: after the query of the live mounts its next call is umount.
    When the unmount fails, the operation returns [False] and nothing
    else is done: no health query is made.  When the unmount succeeds,
    the health query of the array (the array detail) is the call after
    it.  When the status is then not healthy and the user declines to go
    on, the operation returns [False] after these three calls and the
    question; it has unmounted the device, and has not touched the table
    nor mounted anything again. *)
Theorem remount_device_unmounts_first (env : Env) (device_name : string)
    (w : World) (mount_info : MountInfo) :
  startswith "/dev/md" device_name = true ->
  fst (_get_mount_info env device_name w) = Ok (Some mount_info) ->
  let r := remount_device env device_name w in
  let mount := Run ["mount"] in
  let umount := Run ["umount"; device_name] in
  let health := Run ["mdadm"; "--detail"; device_name] in
  let question := Ask "계속 진행하시겠습니까?" in
  let unmounted :=
    returncode (tool env (logs [mount] w) ["umount"; device_name]) in
  (unmounted <> 0%Z -> r = (Ok false, logs [mount; umount] w))
  /\ (unmounted = 0%Z ->
      exists rest,
        trace (snd r) = (trace w ++ mount :: umount :: health :: rest)%list)
  /\ (unmounted = 0%Z ->
      raid_healthy env device_name (logs [mount; umount] w) = false ->
      answer env (logs [mount; umount; health] w) "계속 진행하시겠습니까?"
      = false ->
      r = (Ok false, logs [mount; umount; health; question] w)).
Proof.
  intros Hraid Hmi r mount umount health question unmounted.
  assert (Hmi' : _get_mount_info env device_name w
                 = (Ok (Some mount_info), logs [mount] w)).
  { pose proof (_get_mount_info_world env device_name w) as W.
    destruct (_get_mount_info env device_name w) as [x y].
    simpl in Hmi, W. subst x y. reflexivity. }
  assert (Hr : r = try_except
                     (run_command env ["umount"; device_name] ;;
                      go <- (raid_status <- _check_raid_status env device_name ;;
                             if negb (healthy raid_status)
                             then confirm env "계속 진행하시겠습니까?"
                             else ret true) ;;
                      if negb go then ret false else
                      _update_fstab env device_name (mountpoint mount_info) ;;
                      run_command env
                        ["mount"; device_name; mountpoint mount_info] ;;
                      ret true)
                     (fun _ => ret false) (logs [mount] w)).
  { unfold r, remount_device.
    erewrite try_except_bind_run by exact Hmi'.
    cbv zeta. rewrite Hraid. reflexivity. }
  clearbody r. subst r.
  assert (Hw2 : log umount (logs [mount] w) = logs [mount; umount] w)
    by apply (log_logs umount [mount] w).
  assert (Hw3 : log health (logs [mount; umount] w)
                = logs [mount; umount; health] w)
    by apply (log_logs health [mount; umount] w).
  assert (Hw4 : log question (logs [mount; umount; health] w)
                = logs [mount; umount; health; question] w)
    by apply (log_logs question [mount; umount; health] w).
  split; [|split].
  - intros Hu.
    erewrite try_except_bind_raise by (apply run_command_fails; exact Hu).
    unfold ret. fold umount. now rewrite Hw2.
  - intros Hu.
    erewrite try_except_bind_run by (apply run_command_run; exact Hu).
    cbn [tool_effect]. fold umount. rewrite Hw2.
    erewrite try_except_bind_bind_run by apply _check_raid_status_eq.
    fold health. unfold detail_call. fold health. rewrite Hw3.
    match goal with
    | |- context [try_except ?m ?h _] =>
        assert (E : stays extends (try_except m h))
    end.
    { frame; auto using confirm_extends, append_fstab_extends,
                        run_command_extends. }
    destruct (E (logs [mount; umount; health] w)) as [evs Hevs].
    exists evs. rewrite Hevs. unfold logs. cbn [trace].
    rewrite <- app_assoc. reflexivity.
  - intros Hu Hh Hans.
    erewrite try_except_bind_run by (apply run_command_run; exact Hu).
    cbn [tool_effect]. fold umount. rewrite Hw2.
    erewrite try_except_bind_bind_run by apply _check_raid_status_eq.
    unfold detail_call. fold health. rewrite Hw3, Hh.
    cbn [healthy negb]. unfold try_except, bind, confirm.
    rewrite Hans. cbn [negb]. unfold ret. fold question. now rewrite Hw4.
Qed.

Lemma remount_device_unmounts_first_witness :
  let r := remount_device (Scenario.env false) "/dev/md0" Scenario.mounted in
  r = (Ok false,
       logs [Run ["mount"]; Run ["umount"; "/dev/md0"];
             Run ["mdadm"; "--detail"; "/dev/md0"];
             Ask "계속 진행하시겠습니까?"] Scenario.mounted).
Proof.
  destruct (@remount_device_unmounts_first (Scenario.env false) "/dev/md0"
              Scenario.mounted
              (mkMountInfo "/dev/md0" "/mnt/raid" "ext4" ["rw"; "relatime"]))
    as (_ & _ & H); [reflexivity | reflexivity |].
  apply H; reflexivity.
Defined.

(** A failed unmount ends the operation: the health query is not made. *)
Example remount_device_unmount_fails :
  let env := mkEnv (fun _ argv =>
                      match argv with
                      | ["umount"; _] => mkCompleted 32 ""
                      | _ => Scenario.tools Scenario.fresh argv
                      end)
               (fun _ _ => true) (fun _ _ => true) Scenario.decimal in
  remount_device env "/dev/md0" Scenario.mounted
  = (Ok false,
     logs [Run ["mount"]; Run ["umount"; "/dev/md0"]] Scenario.mounted).
Proof. reflexivity. Qed.

(** C2 fails as it is stated: on a mounted array whose status is not
    healthy, with a user who declines, the health query does not come
    before the umount call; the umount comes before the health query. *)
Lemma remount_device_health_query_after_umount :
  let r := remount_device (Scenario.env false) "/dev/md0" Scenario.mounted in
  let health := is_run ["mdadm"; "--detail"; "/dev/md0"] in
  let umount := is_run ["umount"; "/dev/md0"] in
  startswith "/dev/md" "/dev/md0" = true
  /\ fst (_get_mount_info (Scenario.env false) "/dev/md0" Scenario.mounted)
     = Ok (Some (mkMountInfo "/dev/md0" "/mnt/raid" "ext4" ["rw"; "relatime"]))
  /\ trace (snd r)
     = [Run ["mount"]; Run ["umount"; "/dev/md0"];
        Run ["mdadm"; "--detail"; "/dev/md0"]; Ask "계속 진행하시겠습니까?"]
  /\ occurs_before health umount (trace (snd r)) = false
  /\ occurs_before umount health (trace (snd r)) = true
  /\ fst r = Ok false.
Proof. repeat split. Qed.

(* ================================================================== *)
(** ** The entries of a UUID *)
(* ================================================================== *)




(* ================================================================== *)
(** ** Further properties: results and queries *)
(* ================================================================== *)

Lemma getitem_in {V} (d : list (Z * V)) (k : Z) (v : V) :
  getitem d k = Ok v -> In (k, v) d.
Proof.
  induction d as [|[k' v'] d IH]; simpl; [discriminate|].
  destruct (Z.eqb_spec k k') as [->|_].
  - intros H. inversion H. now left.
  - intros H. right. now apply IH.
Qed.

Lemma getitem_missing {V} (d : list (Z * V)) (k : Z) :
  ~ In k (map fst d) -> getitem d k = Raise KeyError.
Proof.
  induction d as [|[k' v'] d IH]; simpl; [reflexivity|].
  intros H. destruct (Z.eqb_spec k k') as [->|_].
  - exfalso. apply H. now left.
  - apply IH. intros Hin. apply H. now right.
Qed.

(** X2. The levels that have a description are the levels [setup_raid]
    accepts: a level gets the text for an unknown level exactly when it
    is no key of the table of minimum disk counts. *)
Theorem description_known_levels (level : Z) :
  get_raid_level_description level = "알 수 없는 RAID 레벨"
  <-> ~ In level (map fst min_disks).
Proof.
  unfold get_raid_level_description, dict_get. split.
  - intros H Hin. simpl in Hin.
    destruct Hin as [<-|[<-|[<-|[<-|[]]]]]; vm_compute in H; discriminate H.
  - intros H.
    assert (N : ~ In level (map fst descriptions)) by exact H.
    now rewrite (@getitem_missing _ descriptions level N).
Qed.

(** X3. A recommended level is one [setup_raid] accepts, and with two
    disks or more the recommended level can be built from that many
    disks: its minimum disk count is not above the count given. *)
Theorem recommend_raid_level_feasible (num_disks : Z) (disk_sizes : list Z)
    (level : Z) :
  recommend_raid_level num_disks disk_sizes = Ok level ->
  exists need, getitem min_disks level = Ok need
               /\ ((2 <= num_disks)%Z -> (need <= num_disks)%Z).
Proof.
  unfold recommend_raid_level.
  destruct (Z.eqb_spec num_disks 2) as [->|N2].
  { intros H. inversion H. exists 2%Z. split; [reflexivity | lia]. }
  destruct (Z.eqb_spec num_disks 3) as [->|N3].
  { intros H. inversion H. exists 3%Z. split; [reflexivity | lia]. }
  destruct (Z.leb_spec 4 num_disks) as [G|L].
  - destruct (py_min disk_sizes) as [lo|e]; [|discriminate].
    destruct (py_max disk_sizes) as [hi|e]; [|discriminate].
    destruct (Z.eqb lo hi); intros H; inversion H.
    + exists 4%Z. split; [reflexivity | lia].
    + exists 3%Z. split; [reflexivity | lia].
  - intros H. inversion H. exists 2%Z. split; [reflexivity | lia].
Qed.

Lemma recommend_raid_level_feasible_witness :
  exists need, getitem min_disks 6 = Ok need /\ ((2 <= 5)%Z -> (need <= 5)%Z).
Proof.
  apply (@recommend_raid_level_feasible 5 [10; 10; 10; 10; 10]%Z 6).
  reflexivity.
Defined.

(** With one disk the recommendation is level 0, which needs two. *)
Example recommend_raid_level_one_disk :
  recommend_raid_level 1 [100]%Z = Ok 0%Z /\ getitem min_disks 0 = Ok 2%Z.
Proof. split; reflexivity. Qed.

Lemma raid_level_scan_range (lines : list string) (level : Z) :
  raid_level_scan lines = Ok level -> In level [0; 1; 5; 6]%Z.
Proof.
  induction lines as [|line rest IH]; cbn [raid_level_scan].
  - intros H. inversion H. simpl. auto.
  - destruct (contains "Raid Level" line); [|exact IH].
    destruct (index (split ":" line) 1) as [field|e]; [|discriminate].
    cbv zeta.
    destruct (contains "raid0" _); [intros H; inversion H; simpl; auto|].
    destruct (contains "raid1" _); [intros H; inversion H; simpl; auto|].
    destruct (contains "raid5" _); [intros H; inversion H; simpl; auto|].
    destruct (contains "raid6" _); [intros H; inversion H; simpl; auto|].
    exact IH.
Qed.

(** X4. [_get_raid_level] never raises and always answers with one of
    the levels 0, 1, 5, 6, whatever the array tool prints; so the entry a
    table update writes has one of the two option strings. *)
Theorem get_raid_level_range (env : Env) (device_name : string) (w : World) :
  exists level,
    fst (_get_raid_level env device_name w) = Ok level
    /\ In level [0; 1; 5; 6]%Z
    /\ (mount_options level = "defaults,nofail,x-systemd.device-timeout=5"
        \/ mount_options level = "defaults,nofail,x-systemd.device-timeout=3").
Proof.
  rewrite _get_raid_level_run. cbv zeta.
  assert (G : forall level, In level [0; 1; 5; 6]%Z ->
              mount_options level = "defaults,nofail,x-systemd.device-timeout=5"
              \/ mount_options level
                 = "defaults,nofail,x-systemd.device-timeout=3").
  { intros level [<-|[<-|[<-|[<-|[]]]]]; vm_compute; auto. }
  assert (Z0 : In 0%Z [0; 1; 5; 6]%Z) by (simpl; auto).
  destruct (Z.eqb _ 0); [|exists 0%Z; auto].
  destruct (raid_level_scan _) as [level|e] eqn:E.
  - exists level. apply raid_level_scan_range in E. auto.
  - exists 0%Z. auto.
Qed.

Section StatusQueries.

Variable env : Env.

Lemma raid_status_scan_healthy (lines : list string) (ok : bool) :
  raid_status_scan env lines ok = Ok true
  <-> ok = true /\ Forall (status_line_ok env) lines.
Proof.
  revert ok. induction lines as [|line rest IH]; intros ok.
  - simpl. split.
    + intros H. inversion H. auto.
    + now intros [-> _].
  - cbn [raid_status_scan].
    rewrite Forall_cons_iff. unfold status_line_ok at 1.
    destruct (contains "State" line).
    + destruct (index (split ":" line) 1) as [field|e].
      * cbv zeta.
        destruct (contains "clean" (lower (strip field))) eqn:Hclean;
          cbn [negb].
        -- rewrite IH. split.
           ++ intros [Hok Hr]. repeat split; eauto.
           ++ intros (Hok & _ & Hr). now split.
        -- rewrite IH. split; [intros [H _]; discriminate H|].
           intros (_ & (f & Hf & Hc) & _). inversion Hf. subst f.
           rewrite Hclean in Hc. discriminate Hc.
      * split; [discriminate|]. intros (_ & (f & Hf & _) & _). discriminate Hf.
    + destruct (contains "Failed Devices" line).
      * destruct (index (split ":" line) 1) as [field|e].
        -- unfold int. destruct (int_of env (strip field)) as [failed|] eqn:Ei.
           ++ destruct (Z.ltb_spec 0 failed).
              ** rewrite IH. split; [intros [H' _]; discriminate H'|].
                 intros (_ & (f & n & Hf & Hn & Hle) & _).
                 inversion Hf. subst f. rewrite Ei in Hn. inversion Hn. lia.
              ** rewrite IH. split.
                 --- intros [Hok Hr]. repeat split; eauto.
                 --- intros (Hok & _ & Hr). now split.
           ++ split; [discriminate|].
              intros (_ & (f & n & Hf & Hn & _) & _).
              inversion Hf. subst f. rewrite Ei in Hn. discriminate Hn.
        -- split; [discriminate|].
           intros (_ & (f & n & Hf & _) & _). discriminate Hf.
      * rewrite IH. intuition.
Qed.

Lemma _check_raid_status_fst (device_name : string) (w : World) :
  fst (_check_raid_status env device_name w)
  = let r := tool env w ["mdadm"; "--detail"; device_name] in
    if Z.eqb (returncode r) 0
    then match raid_status_scan env (split LF (stdout r)) true with
         | Ok ok => Ok (mkRaidStatus ok)
         | Raise _ => Ok (mkRaidStatus false)
         end
    else Ok (mkRaidStatus false).
Proof.
  unfold _check_raid_status, try_except, bind, run_command, lift, ret.
  cbv zeta. destruct (Z.eqb _ 0); [|reflexivity].
  destruct (raid_status_scan _ _ _); reflexivity.
Qed.

(** The disks taken from the detail: the first fields of the member
    lines, in the order of the lines. *)
Lemma raid_disks_scan_eq (lines : list string) :
  raid_disks_scan lines = map first_field (filter member_line lines).
Proof.
  induction lines as [|line rest IH]; [reflexivity|].
  cbn [raid_disks_scan filter].
  assert (F : first_field line = hd "" (split_ws (strip line))) by reflexivity.
  assert (M : member_line line
              = startswith "    " line
                && (7 <=? length (split_ws (strip line)))%nat
                && startswith "/dev/" (hd "" (split_ws (strip line))))
    by reflexivity.
  rewrite M. clear M.
  destruct (startswith "    " line); [|exact IH].
  cbv zeta. destruct (split_ws (strip line)) as [|p0 parts].
  - exact IH.
  - cbn [andb hd] in *.
    destruct ((7 <=? length (p0 :: parts))%nat && startswith "/dev/" p0).
    + cbn [map]. now rewrite F, IH.
    + exact IH.
Qed.

Lemma member_line_dev (line : string) :
  member_line line = true -> startswith "/dev/" (first_field line) = true.
Proof.
  unfold member_line. intros H. apply andb_true_iff in H. now destruct H.
Qed.

Lemma raid_disks_scan_dev (lines : list string) :
  Forall (fun disk => startswith "/dev/" disk = true) (raid_disks_scan lines).
Proof.
  rewrite raid_disks_scan_eq. apply Forall_forall. intros disk H.
  apply in_map_iff in H. destruct H as (line & <- & H).
  apply filter_In in H. now apply member_line_dev.
Qed.

End StatusQueries.

(** X5. [_check_raid_status] never raises, and it calls the array
    healthy exactly when the detail query succeeds and every line of what
    it prints is in order: each line containing "State" has a colon and a
    value with "clean" in it, and each other line containing "Failed
    Devices" has a colon and a count that reads as a number not above 0.
    Any failure on the way (the tool, a line without colon, a count that
    is no number) gives unhealthy. *)
Theorem check_raid_status_healthy (env : Env) (device_name : string)
    (w : World) :
  let r := tool env w ["mdadm"; "--detail"; device_name] in
  (exists st, fst (_check_raid_status env device_name w) = Ok st)
  /\ (fst (_check_raid_status env device_name w) = Ok (mkRaidStatus true)
      <-> returncode r = 0%Z
          /\ Forall (status_line_ok env) (split LF (stdout r))).
Proof.
  intros r. rewrite _check_raid_status_fst. fold r. cbv zeta. split.
  - destruct (Z.eqb _ 0); [|eauto].
    destruct (raid_status_scan _ _ _); eauto.
  - destruct (Z.eqb_spec (returncode r) 0) as [E|NE].
    + pose proof (raid_status_scan_healthy env (split LF (stdout r)) true) as S.
      destruct (raid_status_scan env (split LF (stdout r)) true) as [ok|e].
      * split.
        -- intros H. inversion H. subst ok. split; [exact E|].
           now apply S.
        -- intros [_ H]. f_equal. f_equal.
           assert (Ok ok = Ok true) as X by (apply S; auto).
           now inversion X.
      * split; [discriminate|]. intros [_ H].
        assert (@Raise bool e = Ok true) as X by (apply S; auto).
        discriminate X.
    + split; [discriminate|]. intros [H _]. contradiction.
Qed.

(** The header of the member table that [mdadm --detail] prints has
    "State" in it and no colon: with it the array is never healthy. *)
Example check_raid_status_member_table :
  fst (_check_raid_status
         (Scenario.printing
            ("             State : clean" ++ nl ++
             "    Failed Devices : 0" ++ nl ++
             "    Number   Major   Minor   RaidDevice State" ++ nl))
         "/dev/md0" Scenario.fresh)
  = Ok (mkRaidStatus false)
  /\ fst (_check_raid_status
            (Scenario.printing
               ("             State : clean" ++ nl ++
                "    Failed Devices : 0" ++ nl))
            "/dev/md0" Scenario.fresh)
     = Ok (mkRaidStatus true).
Proof. split; reflexivity. Qed.

(** X6. [_get_raid_disks] asks for the detail of the array and nothing
    else.  When the query succeeds, the disks it returns are the first
    fields of the member lines of what the query printed, in the order
    of the lines and as often as they occur: the lines that start with
    four spaces, have seven fields or more (separated by white space)
    and a first field under /dev/.  When the query fails, it raises. *)
Theorem get_raid_disks_members (env : Env) (device_name : string)
    (w : World) :
  let r := tool env w ["mdadm"; "--detail"; device_name] in
  let disks := map first_field (filter member_line (split LF (stdout r))) in
  (returncode r = 0%Z ->
   _get_raid_disks env device_name w
   = (Ok disks, log (detail_call device_name) w))
  /\ (returncode r <> 0%Z ->
      exists e, _get_raid_disks env device_name w
                = (Raise e, log (detail_call device_name) w))
  /\ Forall (fun disk => startswith "/dev/" disk = true) disks.
Proof.
  intros r disks. unfold _get_raid_disks. split; [|split].
  - intros H. erewrite bind_run by (apply run_command_run; exact H).
    unfold ret, disks, r. now rewrite raid_disks_scan_eq.
  - intros H. erewrite bind_raise by (apply run_command_fails; exact H).
    eauto.
  - unfold disks. rewrite <- raid_disks_scan_eq. apply raid_disks_scan_dev.
Qed.

Lemma get_raid_disks_members_witness :
  let text := "/dev/md0:" ++ nl ++
              "    /dev/sdb1 8 17 0 active sync set-A" ++ nl ++
              "    /dev/sdd1 spare" ++ nl ++
              "    /dev/sdc1 8 33 1 active sync set-B" ++ nl ++
              "    /dev/sdb1 8 17 0 active sync set-A" ++ nl in
  _get_raid_disks (Scenario.printing text) "/dev/md0" Scenario.fresh
  = (Ok ["/dev/sdb1"; "/dev/sdc1"; "/dev/sdb1"],
     log (detail_call "/dev/md0") Scenario.fresh).
Proof.
  intros text.
  apply (@get_raid_disks_members (Scenario.printing text) "/dev/md0"
           Scenario.fresh).
  reflexivity.
Defined.

(** White space outside ASCII separates fields as well: here the fields
    of the line are separated by no-break spaces (U+00A0). *)
Example get_raid_disks_no_break_space :
  let sp := String (ascii_of_nat 194) (String (ascii_of_nat 160) "") in
  let line := "    /dev/sdb1" ++ sp ++ "8" ++ sp ++ "17" ++ sp ++ "0" ++ sp
              ++ "active" ++ sp ++ "sync" ++ sp ++ "set-A" in
  raid_disks_scan [line] = ["/dev/sdb1"].
Proof. reflexivity. Qed.

(** The member lines as [mdadm --detail] prints them start with the
    member's number, not with its path: none of them is taken. *)
Example get_raid_disks_mdadm_layout :
  raid_disks_scan (split LF Scenario.detail) = [].
Proof. reflexivity. Qed.

(* ================================================================== *)
(** ** Further properties: the mount table *)
(* ================================================================== *)

Lemma ran_nil (w : World) : ran [] w w.
Proof. unfold ran, unchanged_files. now rewrite app_nil_r. Qed.

Lemma ran_app (e1 e2 : list Event) (w w1 w2 : World) :
  ran e1 w w1 -> ran e2 w1 w2 -> ran (e1 ++ e2) w w2.
Proof.
  intros [(F1 & B1 & C1) T1] [(F2 & B2 & C2) T2].
  unfold ran, unchanged_files. rewrite T2, T1, app_assoc.
  repeat split; congruence.
Qed.

Lemma filter_twice {A} (f : A -> bool) (xs : list A) :
  filter f (filter f xs) = filter f xs.
Proof.
  induction xs as [|x xs IH]; simpl; [reflexivity|].
  destruct (f x) eqn:E; simpl; [rewrite E; f_equal|]; exact IH.
Qed.

Lemma filter_swap {A} (f g : A -> bool) (xs : list A) :
  filter f (filter g xs) = filter g (filter f xs).
Proof.
  induction xs as [|x xs IH]; simpl; [reflexivity|].
  destruct (f x) eqn:Ef, (g x) eqn:Eg; simpl; rewrite ?Ef, ?Eg, IH; reflexivity.
Qed.

Section TableUpdates.

Variable env : Env.

(** A program that does not write the backup leaves the files alone. *)
Lemma run_command_ran (argv : list string) (w : World) :
  (forall w0, tool_effect argv w0 = w0) ->
  ran [Run argv] w (snd (run_command env argv w)).
Proof.
  intros H. unfold run_command.
  destruct (Z.eqb _ 0); simpl; rewrite ?H; repeat split.
Qed.

End TableUpdates.

(** X7. A table update ([_update_fstab]) asks for the UUID of the
    device, then for the level of the array, then copies the table to
    its backup, then writes.  When it returns, both the UUID query and
    the copy have succeeded, these three were its calls, the backup is
    the table as it was, and the table is the backup with one entry
    added at its end: the entry of the UUID the query printed
    (stripped), for the given mount point, with the options of the level
    the level query answered.  When the UUID query fails, the update
    raises and has done nothing else.  When the copy fails, the update
    raises after these three calls and the table is what it was. *)
Theorem update_fstab_all_or_nothing (env : Env)
    (device_name mount_point : string) (w : World) :
  let r := _update_fstab env device_name mount_point w in
  (fst r = Ok tt ->
   uuid_known env device_name w
   /\ backup_succeeds env device_name w
   /\ snd r = updated env device_name mount_point w)
  /\ (~ uuid_known env device_name w ->
      exists e, r = (Raise e, log (blkid_call device_name) w))
  /\ (uuid_known env device_name w -> ~ backup_succeeds env device_name w ->
      (exists e, fst r = Raise e)
      /\ fstab (snd r) = fstab w
      /\ trace (snd r) = (trace w ++ update_fstab_calls device_name)%list).
Proof.
  cbv zeta. rewrite _update_fstab_eq. cbv zeta.
  unfold uuid_known, backup_succeeds.
  destruct (Z.eqb_spec
              (returncode (tool env w ["blkid"; "-s"; "UUID"; "-o"; "value"; device_name]))
              0) as [Eb|Eb].
  - destruct (Z.eqb_spec
                (returncode
                   (tool env (logs [blkid_call device_name; detail_call device_name] w)
                      ["cp"; "/etc/fstab"; "/etc/fstab.backup"]))
                0) as [Ec|Ec].
    + split; [auto|]. split; [intros N; contradiction|].
      intros _ N. contradiction.
    + split; [discriminate|]. split; [intros N; contradiction|].
      intros _ _. cbn [fst snd logs fstab trace]. eauto.
  - split; [discriminate|]. split; [eauto|]. intros N. contradiction.
Qed.

(** The entry of an update, on a run. *)
Example update_fstab_entry :
  snd (_update_fstab (Scenario.env true) "/dev/md0" "/mnt/new" Scenario.mounted)
  = mkWorld (fstab_entry "abcd-1234" "/mnt/raid" 1
             ++ fstab_entry "abcd-1234" "/mnt/new" 1)
      (Some (fstab_entry "abcd-1234" "/mnt/raid" 1)) ""
      (update_fstab_calls "/dev/md0").
Proof. reflexivity. Qed.

(** X8. [_remove_from_fstab], when it succeeds, has asked for the UUID
    and nothing else, has made no backup, and has left in the table
    exactly the lines that do not contain the UUID (what the query
    printed, stripped), in their order, as they are read: a line ends at
    a line feed, at a carriage return, or at a carriage return followed
    by a line feed, and is written back with a line feed. *)
Theorem remove_from_fstab_lines (env : Env) (device_name : string)
    (w w' : World) :
  _remove_from_fstab env device_name w = (Ok tt, w') ->
  let uuid := strip (stdout (tool env w
                ["blkid"; "-s"; "UUID"; "-o"; "value"; device_name])) in
  readlines (fstab w') = lines_without uuid (readlines (fstab w))
  /\ Forall (fun line => contains uuid line = false) (readlines (fstab w'))
  /\ fstab_backup w' = fstab_backup w
  /\ trace w'
     = (trace w ++ [Run ["blkid"; "-s"; "UUID"; "-o"; "value"; device_name]])%list
  /\ fstab w' = writelines (lines_without uuid (readlines (fstab w)))
  /\ mdadm_conf w' = mdadm_conf w
  /\ uuid_known env device_name w.
Proof.
  intros H uuid. unfold _remove_from_fstab in H.
  apply bind_ok in H. destruct H as (out & w1 & Hq & H).
  apply run_command_ok in Hq. destruct Hq as (Hrc & -> & ->).
  fold uuid in H. rewrite remove_entries_for_uuid_run in H.
  inversion H. subst w'. clear H. simpl.
  rewrite readlines_without_uuid. repeat split; [|exact Hrc].
  apply Forall_forall. intros line Hl. unfold lines_without in Hl.
  apply filter_In in Hl. destruct Hl as [_ Hl].
  now destruct (contains uuid line).
Qed.

Lemma remove_from_fstab_lines_witness :
  let w := mkWorld (fstab_entry "ffff-0000" "/mnt/data" 0
                    ++ fstab_entry "abcd-1234" "/mnt/raid" 1
                    ++ "/dev/sda1 / ext4 defaults 0 1") None "" [] in
  let w' := snd (_remove_from_fstab (Scenario.env true) "/dev/md0" w) in
  readlines (fstab w')
  = [fstab_entry "ffff-0000" "/mnt/data" 0; "/dev/sda1 / ext4 defaults 0 1"]
  /\ fstab_backup w' = None.
Proof.
  intros w w'.
  destruct (@remove_from_fstab_lines (Scenario.env true) "/dev/md0" w w'
              eq_refl) as (H1 & _ & H3 & _).
  split; [exact H1 | exact H3].
Defined.

(** A carriage return ends a line: of an entry with one in its mount
    point the part after it stays in the table. *)
Example remove_from_fstab_carriage_return :
  let w := mkWorld ("UUID=abcd-1234 /mnt" ++ String CR "foo ext4 defaults 0 0"
                    ++ nl) None "" [] in
  fstab (snd (_remove_from_fstab (Scenario.env true) "/dev/md0" w))
  = "foo ext4 defaults 0 0" ++ nl.
Proof. reflexivity. Qed.

(** X9. Removing the entries of a UUID a second time changes nothing,
    and the entries of two UUIDs can be removed in either order. *)
Theorem remove_entries_idempotent_commute (u v : string) (w : World) :
  let remove := fun uuid w => snd (remove_entries_for_uuid uuid w) in
  fstab (remove u (remove u w)) = fstab (remove u w)
  /\ fstab (remove u (remove v w)) = fstab (remove v (remove u w)).
Proof.
  cbv beta zeta. rewrite !remove_entries_for_uuid_run.
  cbn [fst snd fstab set_fstab]. split.
  - unfold without_uuid at 1. rewrite readlines_without_uuid.
    unfold lines_without. now rewrite filter_twice.
  - unfold without_uuid at 1 3. rewrite !readlines_without_uuid.
    unfold lines_without. now rewrite filter_swap.
Qed.

(* ================================================================== *)
(** ** Further properties: the lifecycle operations *)
(* ================================================================== *)

Section Calls.

Variable env : Env.

Lemma makedirs_ran (path : string) (w : World) :
  ran [Makedirs path] w (snd (makedirs env path w)).
Proof.
  unfold makedirs. destruct (makedirs_ok env w path); repeat split.
Qed.

Lemma run_command_ran_eq (argv : list string) (w w1 : World)
    (r : Result string) :
  (forall w0, tool_effect argv w0 = w0) ->
  run_command env argv w = (r, w1) -> ran [Run argv] w w1.
Proof.
  intros H E. pose proof (run_command_ran env argv w H) as R.
  now rewrite E in R.
Qed.

Lemma makedirs_ran_eq (path : string) (w w1 : World) (r : Result unit) :
  makedirs env path w = (r, w1) -> ran [Makedirs path] w w1.
Proof. intros E. pose proof (makedirs_ran path w) as R. now rewrite E in R. Qed.

Lemma _get_mount_info_ran (device_name : string) (w : World) :
  ran [Run ["mount"]] w (snd (_get_mount_info env device_name w)).
Proof.
  unfold _get_mount_info, try_except, bind, lift, ret.
  pose proof (@run_command_ran env ["mount"] w (fun _ => eq_refl)) as R.
  destruct (run_command env ["mount"] w) as [[out|e] w1]; simpl in *.
  - destruct (mount_info_scan _ _); exact R.
  - exact R.
Qed.

Lemma _get_mount_info_fst (device_name : string) (w : World) :
  fst (_get_mount_info env device_name w)
  = let r := tool env w ["mount"] in
    if Z.eqb (returncode r) 0
    then match mount_info_scan device_name (split LF (stdout r)) with
         | Ok info => Ok info
         | Raise _ => Ok None
         end
    else Ok None.
Proof.
  unfold _get_mount_info, try_except, bind, run_command, lift, ret.
  cbv zeta. destruct (Z.eqb _ 0); [|reflexivity].
  destruct (mount_info_scan _ _); reflexivity.
Qed.

Lemma mount_info_scan_skip (device_name : string) (pre rest : list string) :
  (forall l, In l pre -> contains device_name l = false) ->
  mount_info_scan device_name (pre ++ rest)
  = mount_info_scan device_name rest.
Proof.
  induction pre as [|l pre IH]; intros H; [reflexivity|].
  change ((l :: pre) ++ rest)%list with (l :: (pre ++ rest))%list.
  cbn [mount_info_scan]. rewrite (H l) by now left.
  apply IH. intros l' Hl'. apply H. now right.
Qed.

End Calls.

(** X10. [_get_mount_info] never raises.  It gives [None] when the
    [mount] query fails and when no line it prints contains the device
    name.  Otherwise the first line that contains the device name
    decides: with six fields or more the info is made of its fields 0
    (device), 2 (mount point), 4 (file system, without parentheses) and 5
    (options, without parentheses, split at commas); with fewer fields
    the result is [None], whatever the later lines are. *)
Theorem get_mount_info_first_line (env : Env) (device_name : string)
    (w : World) :
  let r := tool env w ["mount"] in
  let info := fst (_get_mount_info env device_name w) in
  (exists i, info = Ok i)
  /\ (returncode r <> 0%Z -> info = Ok None)
  /\ (returncode r = 0%Z ->
      (forall l, In l (split LF (stdout r)) -> contains device_name l = false) ->
      info = Ok None)
  /\ (forall pre line post,
        returncode r = 0%Z ->
        split LF (stdout r) = (pre ++ line :: post)%list ->
        (forall l, In l pre -> contains device_name l = false) ->
        contains device_name line = true ->
        (forall f0 f1 f2 f3 f4 f5 rest,
           split_ws line = f0 :: f1 :: f2 :: f3 :: f4 :: f5 :: rest ->
           info = Ok (Some (mkMountInfo f0 f2 (strip_chars "()" f4)
                              (split "," (strip_chars "()" f5)))))
        /\ (length (split_ws line) < 6 -> info = Ok None)).
Proof.
  intros r info. unfold info. rewrite _get_mount_info_fst. fold r. cbv zeta.
  split; [|split; [|split]].
  - destruct (Z.eqb _ 0); [|eauto]. destruct (mount_info_scan _ _); eauto.
  - intros H. apply Z.eqb_neq in H. now rewrite H.
  - intros H Hno. apply Z.eqb_eq in H. rewrite H.
    rewrite <- (app_nil_r (split LF (stdout r))).
    now rewrite mount_info_scan_skip.
  - intros pre line post H Hs Hpre Hline.
    apply Z.eqb_eq in H. rewrite H, Hs, mount_info_scan_skip by exact Hpre.
    cbn [mount_info_scan]. rewrite Hline. cbv zeta. split.
    + intros f0 f1 f2 f3 f4 f5 rest ->. reflexivity.
    + intros Hlen.
      destruct (split_ws line) as [|f0 [|f1 [|f2 [|f3 [|f4 [|f5 rest]]]]]];
        try reflexivity.
      simpl in Hlen. lia.
Qed.

Example get_mount_info_substring :
  let text := "/dev/md10 on /mnt/other type ext4 (rw)" ++ nl ++
              "/dev/md1 on /mnt/raid type ext4 (rw,relatime)" ++ nl in
  fst (_get_mount_info (Scenario.printing text) "/dev/md1" Scenario.fresh)
  = Ok (Some (mkMountInfo "/dev/md10" "/mnt/other" "ext4" ["rw"])).
Proof. reflexivity. Qed.

(** X11. A device that has no live mount info is not touched by
    [remount_device]: it returns [False], its only call was the query of
    the live mounts, and no file has changed. *)
Theorem remount_device_not_mounted (env : Env) (device_name : string)
    (w : World) :
  fst (_get_mount_info env device_name w) = Ok None ->
  fst (remount_device env device_name w) = Ok false
  /\ ran [Run ["mount"]] w (snd (remount_device env device_name w)).
Proof.
  intros H. pose proof (_get_mount_info_ran env device_name w) as R.
  unfold remount_device, try_except, bind.
  destruct (_get_mount_info env device_name w) as [r w1]. simpl in H, R.
  subst r. simpl. now split.
Qed.

Lemma remount_device_not_mounted_witness :
  fst (remount_device (Scenario.printing "") "/dev/md0" Scenario.mounted)
  = Ok false
  /\ ran [Run ["mount"]] Scenario.mounted
       (snd (remount_device (Scenario.printing "") "/dev/md0" Scenario.mounted)).
Proof.
  apply (@remount_device_not_mounted (Scenario.printing "") "/dev/md0"
           Scenario.mounted).
  reflexivity.
Defined.

Section Operations.

Variable env : Env.

(** [change_mount_point], step by step. *)
Lemma change_mount_point_eq (device_name new_mount_point : string)
    (w : World) :
  change_mount_point env device_name new_mount_point w
  = let umount := ["umount"; device_name] in
    let mount := ["mount"; device_name; new_mount_point] in
    let w1 := logs [Run umount] w in
    let w2 := logs [Run umount; Makedirs new_mount_point] w in
    let w3 := logs [Run umount; Makedirs new_mount_point; Run mount] w in
    if Z.eqb (returncode (tool env w umount)) 0 then
      if makedirs_ok env w1 new_mount_point then
        if Z.eqb (returncode (tool env w2 mount)) 0 then
          match _update_fstab env device_name new_mount_point w3 with
          | (Ok _, w4) => (Ok true, w4)
          | (Raise _, w4) => (Ok false, w4)
          end
        else (Ok false, w3)
      else (Ok false, w2)
    else (Ok false, w1).
Proof.
  cbv zeta. unfold change_mount_point, try_except.
  unfold bind at 1. unfold run_command at 1.
  destruct (Z.eqb (returncode (tool env w ["umount"; device_name])) 0);
    [|reflexivity].
  cbn [tool_effect]. unfold bind at 1. unfold makedirs at 1.
  change (log (Run ["umount"; device_name]) w)
    with (logs [Run ["umount"; device_name]] w).
  destruct (makedirs_ok env (logs [Run ["umount"; device_name]] w)
              new_mount_point).
  - rewrite (log_logs (Makedirs new_mount_point)
               [Run ["umount"; device_name]] w).
    cbn [app]. unfold bind at 1. unfold run_command at 1.
    destruct (Z.eqb (returncode (tool env _ ["mount"; device_name; new_mount_point])) 0).
    + cbn [tool_effect String.eqb Ascii.eqb Bool.eqb andb].
      rewrite (log_logs (Run ["mount"; device_name; new_mount_point])
                 [Run ["umount"; device_name]; Makedirs new_mount_point] w).
      cbn [app]. unfold bind, ret.
      destruct (_update_fstab env device_name new_mount_point _) as [[o|e] w4];
        reflexivity.
    + rewrite (log_logs (Run ["mount"; device_name; new_mount_point])
                 [Run ["umount"; device_name]; Makedirs new_mount_point] w).
      reflexivity.
  - rewrite (log_logs (Makedirs new_mount_point)
               [Run ["umount"; device_name]] w).
    reflexivity.
Qed.


Lemma for_each_zero_step (disk : string) (rest : list string) (w : World) :
  let body := fun disk =>
                run_command env ["mdadm"; "--zero-superblock"; disk] ;; ret tt in
  for_each body (disk :: rest) w
  = if Z.eqb (returncode (tool env w ["mdadm"; "--zero-superblock"; disk])) 0
    then for_each body rest (log (zero_call disk) w)
    else (Raise (ExternalToolError ["mdadm"; "--zero-superblock"; disk]
                   (returncode
                      (tool env w ["mdadm"; "--zero-superblock"; disk]))),
          log (zero_call disk) w).
Proof.
  cbv zeta. cbn [for_each]. unfold bind at 1 2. unfold run_command at 1.
  destruct (Z.eqb _ 0); reflexivity.
Qed.

(** The loop of [remove_raid] over the member disks: either every
    superblock is erased, or the loop stops at the first disk whose
    erasure fails. *)
Lemma for_each_zero_eq (disks : list string) (w : World) :
  let body := fun disk =>
                run_command env ["mdadm"; "--zero-superblock"; disk] ;; ret tt in
  for_each body disks w = (Ok tt, logs (map zero_call disks) w)
  \/ exists i e,
       i < length disks
       /\ for_each body disks w
          = (Raise e, logs (map zero_call (firstn (S i) disks)) w).
Proof.
  cbv zeta. revert w. induction disks as [|disk rest IH]; intros w.
  - left. cbn [for_each map]. now rewrite logs_nil.
  - pose proof (for_each_zero_step disk rest w) as S. cbv zeta in S.
    rewrite S. clear S.
    destruct (Z.eqb _ 0).
    + destruct (IH (log (zero_call disk) w)) as [H|(i & e & Hi & H)].
      * left. rewrite H. cbn [map]. now rewrite (logs_cons (zero_call disk)).
      * right. exists (S i), e. split; [simpl; lia|].
        rewrite H. cbn [firstn map].
        now rewrite (logs_cons (zero_call disk)).
    + right. exists 0. eexists. split; [simpl; lia|]. reflexivity.
Qed.

(** A [remove_raid] that returns [True]: the array was stopped, its
    detail read, the superblock of every member disk erased, and the
    UUID asked for after that. *)
Lemma remove_raid_ok (device_name : string) (w w' : World) :
  remove_raid env device_name w = (Ok true, w') ->
  let disks :=
    raid_disks_scan
      (split LF (stdout (tool env (logs [stop_call device_name] w)
                           ["mdadm"; "--detail"; device_name]))) in
  let wq := logs (stop_call device_name :: detail_call device_name
                  :: map zero_call disks) w in
  returncode (tool env w ["mdadm"; "--stop"; device_name]) = 0%Z
  /\ returncode (tool env (logs [stop_call device_name] w)
                   ["mdadm"; "--detail"; device_name]) = 0%Z
  /\ uuid_known env device_name wq
  /\ w' = set_fstab (without_uuid (device_uuid env device_name wq) (fstab w))
            (log (blkid_call device_name) wq).
Proof.
  cbv zeta. unfold remove_raid, try_except. intros H.
  unfold bind at 1 in H. unfold run_command at 1 in H.
  destruct (Z.eqb_spec (returncode (tool env w ["mdadm"; "--stop"; device_name])) 0)
    as [E1|E1]; [|discriminate].
  cbn [tool_effect String.eqb Ascii.eqb Bool.eqb andb] in H.
  change (log (Run ["mdadm"; "--stop"; device_name]) w)
    with (logs [stop_call device_name] w) in H.
  unfold bind at 1 in H. unfold _get_raid_disks at 1 in H.
  unfold bind at 1 in H. unfold run_command at 1 in H.
  destruct (Z.eqb_spec
              (returncode (tool env (logs [stop_call device_name] w)
                             ["mdadm"; "--detail"; device_name])) 0)
    as [E2|E2]; [|discriminate].
  cbn [tool_effect String.eqb Ascii.eqb Bool.eqb andb ret] in H.
  change (Run ["mdadm"; "--detail"; device_name])
    with (detail_call device_name) in H.
  rewrite (log_logs (detail_call device_name) [stop_call device_name] w) in H.
  cbn [app] in H. unfold bind at 1 in H.
  destruct (for_each_zero_eq
              (raid_disks_scan
                 (split LF (stdout (tool env (logs [stop_call device_name] w)
                                      ["mdadm"; "--detail"; device_name]))))
              (logs [stop_call device_name; detail_call device_name] w))
    as [Z|(i & e & _ & Z)]; cbv zeta in Z; rewrite Z in H; [|discriminate].
  rewrite <- logs_app in H. cbn [app] in H.
  unfold bind at 1 in H. unfold _remove_from_fstab, bind at 1, run_command in H.
  unfold uuid_known.
  match type of H with
  | context [Z.eqb (returncode ?c) 0] =>
      destruct (Z.eqb_spec (returncode c) 0) as [E3|E3]; [|discriminate]
  end.
  cbn [tool_effect] in H. rewrite remove_entries_for_uuid_run in H.
  inversion H. repeat split; assumption.
Qed.

(** The second half of [remount_device], from the status check on. *)
Lemma remount_rest_ok (device_name : string) (mount_info : MountInfo)
    (w2 w' : World) :
  try_except
    (go <- (if startswith "/dev/md" device_name then
              raid_status <- _check_raid_status env device_name ;;
              if negb (healthy raid_status)
              then confirm env "계속 진행하시겠습니까?"
              else ret true
            else ret true) ;;
     if negb go then ret false else
     _update_fstab env device_name (mountpoint mount_info) ;;
     (if startswith "/dev/md" device_name
      then run_command env ["mount"; device_name; mountpoint mount_info]
      else run_command env ["mount"; "-a"]) ;;
     ret true)
    (fun _ => ret false) w2 = (Ok true, w') ->
  let wq := logs (status_calls env device_name w2) w2 in
  (startswith "/dev/md" device_name = true ->
   raid_healthy env device_name w2 = false ->
   answer env (logs [detail_call device_name] w2) "계속 진행하시겠습니까?"
   = true)
  /\ uuid_known env device_name wq
  /\ backup_succeeds env device_name wq
  /\ w' = log (mount_again device_name mount_info)
            (updated env device_name (mountpoint mount_info) wq).
Proof.
  cbv zeta. unfold status_calls, mount_again, try_except. intros H.
  match type of H with
  | (let (_, _) := ?m w2 in _) = _ => destruct (m w2) as [[b|e] wb] eqn:E
  end; [|discriminate H].
  inversion H. subst b wb. clear H.
  apply bind_ok in E. destruct E as (go & w3 & H3 & E).
  destruct go; [cbn [negb] in E | discriminate E].
  apply bind_ok in E. destruct E as (o4 & w4 & H4 & E).
  apply _update_fstab_ok in H4. destruct H4 as (U4 & B4 & ->).
  apply bind_ok in E. destruct E as (o5 & w5 & H5 & E).
  inversion E. subst w5. clear E.
  assert (W : w3 = logs (if startswith "/dev/md" device_name
                         then if raid_healthy env device_name w2
                              then [detail_call device_name]
                              else [detail_call device_name;
                                    Ask "계속 진행하시겠습니까?"]
                         else []) w2
              /\ (startswith "/dev/md" device_name = true ->
                  raid_healthy env device_name w2 = false ->
                  answer env (logs [detail_call device_name] w2)
                    "계속 진행하시겠습니까?" = true)).
  { destruct (startswith "/dev/md" device_name).
    - unfold bind in H3. rewrite _check_raid_status_eq in H3.
      cbn [healthy] in H3.
      destruct (raid_healthy env device_name w2); cbn [negb] in H3.
      + inversion H3. split; [reflexivity | discriminate].
      + unfold confirm in H3. injection H3 as Ha Hw.
        split; [|intros _ _; exact Ha].
        rewrite <- Hw.
        apply (log_logs (Ask "계속 진행하시겠습니까?")
                 [detail_call device_name] w2).
    - inversion H3. rewrite logs_nil. split; [reflexivity | discriminate]. }
  destruct W as [-> Hans].
  split; [exact Hans|]. split; [exact U4|]. split; [exact B4|].
  destruct (startswith "/dev/md" device_name);
    unfold run_command in H5;
    destruct (Z.eqb _ 0); inversion H5; reflexivity.
Qed.

(** A [remount_device] that returns [True]. *)
Lemma remount_device_ok (device_name : string) (w w' : World) :
  remount_device env device_name w = (Ok true, w') ->
  exists mount_info,
    let w2 := logs [Run ["mount"]; Run ["umount"; device_name]] w in
    let wq := logs ([Run ["mount"]; Run ["umount"; device_name]]
                    ++ status_calls env device_name w2) w in
    fst (_get_mount_info env device_name w) = Ok (Some mount_info)
    /\ returncode (tool env (logs [Run ["mount"]] w) ["umount"; device_name])
       = 0%Z
    /\ (startswith "/dev/md" device_name = true ->
        raid_healthy env device_name w2 = false ->
        answer env (logs [detail_call device_name] w2)
          "계속 진행하시겠습니까?" = true)
    /\ uuid_known env device_name wq
    /\ backup_succeeds env device_name wq
    /\ w' = log (mount_again device_name mount_info)
              (updated env device_name (mountpoint mount_info) wq).
Proof.
  intros H.
  pose proof (_get_mount_info_world env device_name w) as W.
  destruct (_get_mount_info env device_name w) as [[[mount_info|]|e] w1] eqn:Hmi;
    simpl in W; subst w1.
  - exists mount_info. cbv zeta. split; [reflexivity|].
    unfold remount_device in H.
    erewrite try_except_bind_run in H by exact Hmi. cbv beta iota zeta in H.
    change (log (Run ["mount"]) w) with (logs [Run ["mount"]] w) in H.
    destruct (Z.eqb_spec
                (returncode (tool env (logs [Run ["mount"]] w)
                               ["umount"; device_name])) 0) as [Eu|Eu].
    + split; [exact Eu|].
      erewrite try_except_bind_run in H by (apply run_command_run; exact Eu).
      cbn [tool_effect] in H.
      rewrite (log_logs (Run ["umount"; device_name]) [Run ["mount"]] w) in H.
      cbn [app] in H.
      apply remount_rest_ok in H. cbv zeta in H.
      rewrite (logs_app [Run ["mount"]; Run ["umount"; device_name]]). exact H.
    + exfalso.
      erewrite try_except_bind_raise in H
        by (apply run_command_fails; exact Eu).
      discriminate H.
  - exfalso. unfold remount_device in H.
    erewrite try_except_bind_run in H by exact Hmi. discriminate H.
  - exfalso. unfold remount_device in H.
    erewrite try_except_bind_raise in H by exact Hmi. discriminate H.
Qed.

End Operations.


(** X12. [change_mount_point] unmounts the device, creates the new
    mount point, mounts the device on it and then updates the table.
    When one of the first three steps fails, or the UUID query of the
    table update, the operation returns [False] at once: its calls were
    the ones up to the step that failed, the table update has written
    nothing, and no file has changed. *)
Theorem change_mount_point_failed (env : Env)
    (device_name new_mount_point : string) (w : World) :
  let umount := ["umount"; device_name] in
  let mount := ["mount"; device_name; new_mount_point] in
  let w1 := logs [Run umount] w in
  let w2 := logs [Run umount; Makedirs new_mount_point] w in
  let w3 := logs [Run umount; Makedirs new_mount_point; Run mount] w in
  let w4 := logs [Run umount; Makedirs new_mount_point; Run mount;
                  blkid_call device_name] w in
  let r := change_mount_point env device_name new_mount_point w in
  (returncode (tool env w umount) <> 0%Z -> r = (Ok false, w1))
  /\ (returncode (tool env w umount) = 0%Z ->
      makedirs_ok env w1 new_mount_point = false ->
      r = (Ok false, w2))
  /\ (returncode (tool env w umount) = 0%Z ->
      makedirs_ok env w1 new_mount_point = true ->
      returncode (tool env w2 mount) <> 0%Z ->
      r = (Ok false, w3))
  /\ (returncode (tool env w umount) = 0%Z ->
      makedirs_ok env w1 new_mount_point = true ->
      returncode (tool env w2 mount) = 0%Z ->
      ~ uuid_known env device_name w3 ->
      r = (Ok false, w4)).
Proof.
  cbv zeta. rewrite change_mount_point_eq. cbv zeta.
  split; [|split; [|split]].
  - intros H. apply Z.eqb_neq in H. now rewrite H.
  - intros H1 H2. apply Z.eqb_eq in H1. now rewrite H1, H2.
  - intros H1 H2 H3. apply Z.eqb_eq in H1. apply Z.eqb_neq in H3.
    now rewrite H1, H2, H3.
  - intros H1 H2 H3 H4. apply Z.eqb_eq in H1, H3. rewrite H1, H2, H3.
    rewrite _update_fstab_eq. cbv zeta. unfold uuid_known in H4.
    apply Z.eqb_neq in H4. rewrite H4.
    now rewrite (log_logs (blkid_call device_name)).
Qed.

Lemma change_mount_point_failed_witness :
  let tools := fun (w : World) (argv : list string) =>
                 match argv with
                 | ["mount"; _; _] => mkCompleted 32 ""
                 | _ => Scenario.tools w argv
                 end in
  let env := mkEnv tools (fun _ _ => true) (fun _ _ => true) Scenario.decimal in
  change_mount_point env "/dev/md0" "/mnt/new" Scenario.mounted
  = (Ok false,
     logs [Run ["umount"; "/dev/md0"]; Makedirs "/mnt/new";
           Run ["mount"; "/dev/md0"; "/mnt/new"]] Scenario.mounted).
Proof.
  intros tools env.
  apply (@change_mount_point_failed env "/dev/md0" "/mnt/new"
           Scenario.mounted); [reflexivity | reflexivity | discriminate].
Defined.

(** X13. [remove_raid] stops the array first; when that fails it returns
    [False] and has done nothing else.  A [remove_raid] that returns
    [True] has stopped the array, then asked for its detail, then erased
    the superblock of every member disk, then asked for the UUID: the
    member disks are the ones [_get_raid_disks] reads from the detail
    printed after the stop, in their order, and the UUID is what the
    query after these calls printed (stripped).  It has rewritten the
    table without the lines containing that UUID, and has made no backup
    and left the array configuration as it was. *)
Theorem remove_raid_outcome (env : Env) (device_name : string) (w : World) :
  let r := remove_raid env device_name w in
  let disks :=
    map first_field
      (filter member_line
         (split LF (stdout (tool env (logs [stop_call device_name] w)
                              ["mdadm"; "--detail"; device_name])))) in
  let wq := logs (stop_call device_name :: detail_call device_name
                  :: map zero_call disks) w in
  (returncode (tool env w ["mdadm"; "--stop"; device_name]) <> 0%Z ->
   r = (Ok false, logs [stop_call device_name] w))
  /\ (fst r = Ok true ->
      uuid_known env device_name wq
      /\ trace (snd r)
         = (trace w
            ++ [stop_call device_name; detail_call device_name]
            ++ map zero_call disks
            ++ [blkid_call device_name])%list
      /\ fstab (snd r)
         = without_uuid (device_uuid env device_name wq) (fstab w)
      /\ fstab_backup (snd r) = fstab_backup w
      /\ mdadm_conf (snd r) = mdadm_conf w).
Proof.
  cbv zeta. split.
  - intros H. unfold remove_raid.
    erewrite try_except_bind_raise by (apply run_command_fails; exact H).
    reflexivity.
  - intros H.
    destruct (remove_raid env device_name w) as [r w'] eqn:E.
    simpl in H. subst r. apply remove_raid_ok in E. cbv zeta in E.
    rewrite raid_disks_scan_eq in E.
    destruct E as (_ & _ & U & ->). split; [exact U|].
    cbn [snd set_fstab log logs trace fstab fstab_backup mdadm_conf].
    rewrite <- !app_assoc. repeat split.
Qed.

Lemma remove_raid_outcome_witness :
  let text := "/dev/md0:" ++ nl ++
              "    /dev/sdb1 8 17 0 active sync set-A" ++ nl ++
              "    /dev/sdc1 8 33 1 active sync set-B" ++ nl in
  let tools := fun (w : World) (argv : list string) =>
                 match argv with
                 | ["mdadm"; "--detail"; _] => mkCompleted 0 text
                 | _ => Scenario.tools w argv
                 end in
  let env := mkEnv tools (fun _ _ => true) (fun _ _ => true) Scenario.decimal in
  let w := mkWorld (fstab_entry "ffff-0000" "/mnt/data" 0
                    ++ fstab_entry "abcd-1234" "/mnt/raid" 1) None "" [] in
  let r := remove_raid env "/dev/md0" w in
  trace (snd r)
  = [stop_call "/dev/md0"; detail_call "/dev/md0";
     zero_call "/dev/sdb1"; zero_call "/dev/sdc1"; blkid_call "/dev/md0"]
  /\ fstab (snd r) = fstab_entry "ffff-0000" "/mnt/data" 0
  /\ fstab_backup (snd r) = None.
Proof.
  intros text tools env w r.
  destruct (@remove_raid_outcome env "/dev/md0" w) as [_ H].
  destruct (H eq_refl) as (_ & T & F & B & _).
  split; [exact T|]. split; [exact F | exact B].
Defined.

(** X14. A [remount_device] that returns [True] has found the live
    mount info of the device and has made these calls, in this order:
    the query of the live mounts, the umount, for an array (a path
    starting with /dev/md) the health query and, exactly when the array
    is not healthy, the question to the user (who answered yes), then
    the three calls of the table update, then the mount: of the device
    on its old mount point for an array, [mount -a] for any other
    device.  The table has one entry more at its end: the entry of the
    UUID the query of the update printed, for the old mount point, with
    the options of the level the level query answered; and the backup is
    the table as it was. *)
Theorem remount_device_success (env : Env) (device_name : string)
    (w w' : World) :
  remount_device env device_name w = (Ok true, w') ->
  let w2 := logs [Run ["mount"]; Run ["umount"; device_name]] w in
  let wq := logs ([Run ["mount"]; Run ["umount"; device_name]]
                  ++ status_calls env device_name w2) w in
  exists mount_info,
    fst (_get_mount_info env device_name w) = Ok (Some mount_info)
    /\ trace w'
       = (trace w
          ++ [Run ["mount"]; Run ["umount"; device_name]]
          ++ status_calls env device_name w2
          ++ update_fstab_calls device_name
          ++ [if startswith "/dev/md" device_name
              then Run ["mount"; device_name; mountpoint mount_info]
              else Run ["mount"; "-a"]])%list
    /\ (startswith "/dev/md" device_name = true ->
        raid_healthy env device_name w2 = false ->
        answer env (logs [detail_call device_name] w2)
          "계속 진행하시겠습니까?" = true)
    /\ uuid_known env device_name wq
    /\ fstab w'
       = fstab w ++ new_entry env device_name (mountpoint mount_info) wq
    /\ fstab_backup w' = Some (fstab w)
    /\ mdadm_conf w' = mdadm_conf w.
Proof.
  intros H. apply remount_device_ok in H.
  destruct H as (mount_info & Hmi & _ & Hans & U & _ & ->).
  cbv zeta. exists mount_info.
  split; [exact Hmi|]. split; [|split; [exact Hans|split; [exact U|]]].
  - unfold mount_again. cbn [log updated logs trace].
    rewrite <- !app_assoc. reflexivity.
  - repeat split.
Qed.

Lemma remount_device_success_witness :
  let w' := snd (remount_device (Scenario.env true) "/dev/md0"
                   Scenario.mounted) in
  exists mount_info,
    fst (_get_mount_info (Scenario.env true) "/dev/md0" Scenario.mounted)
    = Ok (Some mount_info)
    /\ mountpoint mount_info = "/mnt/raid"
    /\ trace w'
       = [Run ["mount"]; Run ["umount"; "/dev/md0"];
          detail_call "/dev/md0"; Ask "계속 진행하시겠습니까?";
          blkid_call "/dev/md0"; detail_call "/dev/md0"; backup_call;
          Run ["mount"; "/dev/md0"; "/mnt/raid"]]
    /\ fstab w'
       = fstab Scenario.mounted ++ fstab_entry "abcd-1234" "/mnt/raid" 1
    /\ fstab_backup w' = Some (fstab Scenario.mounted).
Proof.
  intros w'.
  destruct (@remount_device_success (Scenario.env true) "/dev/md0"
              Scenario.mounted w' eq_refl)
    as (mount_info & Hmi & T & _ & _ & F & B & _).
  exists mount_info.
  assert (M : mount_info
              = mkMountInfo "/dev/md0" "/mnt/raid" "ext4" ["rw"; "relatime"]).
  { vm_compute in Hmi. now inversion Hmi. }
  subst mount_info.
  split; [exact Hmi|]. split; [reflexivity|].
  split; [exact T|]. split; [exact F | exact B].
Defined.

(** Every remount adds an entry: after two remounts of a mounted array
    its UUID has three entries for the same mount point. *)
Example remount_device_twice :
  length (entries_for "abcd-1234"
            (fstab (run_ops (Scenario.env true)
                      [RemountDevice "/dev/md0"; RemountDevice "/dev/md0"]
                      Scenario.mounted))) = 3.
Proof. reflexivity. Qed.

(** White space outside ASCII separates the fields of a live mount as
    well: here the fields are separated by no-break spaces (U+00A0). *)
Example get_mount_info_no_break_space :
  let sp := String (ascii_of_nat 194) (String (ascii_of_nat 160) "") in
  let text := "/dev/md0" ++ sp ++ "on" ++ sp ++ "/mnt/raid" ++ sp ++ "type"
              ++ sp ++ "ext4" ++ sp ++ "(rw)" ++ nl in
  fst (_get_mount_info (Scenario.printing text) "/dev/md0" Scenario.fresh)
  = Ok (Some (mkMountInfo "/dev/md0" "/mnt/raid" "ext4" ["rw"])).
Proof. reflexivity. Qed.

(* ================================================================== *)
(** ** Further properties: setup_raid *)
(* ================================================================== *)

#[local] Instance quiet_preorder : PreOrder quiet.
Proof.
  split.
  - intros w. exists []. split; [apply ran_nil | constructor].
  - intros a b c (e1 & R1 & Q1) (e2 & R2 & Q2).
    exists (e1 ++ e2)%list. split; [apply (ran_app R1 R2)|].
    apply Forall_app. now split.
Qed.

Lemma only_asked_quiet (w w' : World) : only_asked w w' -> quiet w w'.
Proof.
  intros (F & B & C & evs & T & Q). exists evs. split.
  - repeat split; assumption.
  - eapply Forall_impl; [|exact Q]. apply query_only_not_mutating.
Qed.

Section Setup.

Variable env : Env.

(** The capacity queries are made in the order of the disks, up to the
    first that fails. *)
Lemma read_sizes_ran (disks : list string) (w w' : World)
    (r : Result (list Z)) :
  read_sizes env disks w = (r, w') ->
  exists k,
    ran (map (fun disk => Run ["blockdev"; "--getsize64"; disk])
           (firstn k disks)) w w'
    /\ (forall sizes, r = Ok sizes -> k = length disks).
Proof.
  revert w w' r. induction disks as [|disk rest IH]; intros w w' r E.
  - inversion E. exists 0. split; [apply ran_nil | reflexivity].
  - cbn [read_sizes] in E. unfold bind at 1 in E.
    pose proof (@run_command_ran env ["blockdev"; "--getsize64"; disk] w
                  (fun _ => eq_refl)) as R.
    destruct (run_command env _ w) as [[out|e] w1]; simpl in R.
    + unfold bind at 1, lift in E.
      destruct (int env (strip out)) as [n|e].
      * unfold bind, ret in E.
        destruct (read_sizes env rest w1) as [[sizes|e] w2] eqn:Er;
          destruct (IH w1 _ _ Er) as (k & Rk & Hk);
          inversion E; subst r w'; exists (S k);
          (split; [apply (ran_app R Rk)|]).
        -- intros s _. simpl. f_equal. eauto.
        -- intros s X. discriminate X.
      * inversion E. subst r w'. exists 1. simpl.
        split; [destruct rest; exact R | intros s X; discriminate X].
    + inversion E. subst r w'. exists 1. simpl.
      split; [destruct rest; exact R | intros s X; discriminate X].
Qed.

Lemma _check_disk_sizes_snd (disks : list string) (w : World) :
  snd (_check_disk_sizes env disks w) = snd (read_sizes env disks w).
Proof.
  unfold _check_disk_sizes, try_except, bind, ret.
  destruct (read_sizes env disks w) as [[sizes|e] w1]; reflexivity.
Qed.

Lemma blockdev_calls_quiet (disks : list string) :
  Forall (fun e => mutating e = false)
    (map (fun disk => Run ["blockdev"; "--getsize64"; disk]) disks).
Proof. apply Forall_forall. intros e H. apply in_map_iff in H.
  destruct H as (d & <- & _). reflexivity.
Qed.

Lemma _check_disk_sizes_quiet (disks : list string) :
  stays quiet (_check_disk_sizes env disks).
Proof.
  intros w. rewrite _check_disk_sizes_snd.
  destruct (read_sizes env disks w) as [r w'] eqn:E.
  destruct (@read_sizes_ran disks w w' r E) as (k & R & _).
  eexists. split; [exact R | apply blockdev_calls_quiet].
Qed.

Lemma confirm_quiet (prompt : string) : stays quiet (confirm env prompt).
Proof. intros w. apply only_asked_quiet, confirm_only_asked. Qed.

Lemma health_checks_quiet (disks : list string) :
  stays quiet (health_checks env disks).
Proof. intros w. apply only_asked_quiet, health_checks_only_asked. Qed.

Lemma _create_partition_ran (disk : string) (w w' : World) :
  _create_partition env disk w = (Ok tt, w') ->
  ran (partition_calls disk) w w'.
Proof.
  unfold _create_partition. intros E.
  apply bind_ok in E. destruct E as (o1 & w1 & H1 & E).
  apply bind_ok in E. destruct E as (o2 & w2 & H2 & E).
  apply bind_ok in E. destruct E as (o3 & w3 & H3 & E).
  inversion E. subst w3.
  apply run_command_ran_eq in H1, H2, H3; try reflexivity.
  apply (ran_app (ran_app H1 H2) H3).
Qed.

Lemma partitions_ran (disks : list string) (w w' : World) :
  for_each (_create_partition env) disks w = (Ok tt, w') ->
  ran (flat_map partition_calls disks) w w'.
Proof.
  revert w. induction disks as [|disk rest IH]; intros w E.
  - inversion E. apply ran_nil.
  - cbn [for_each] in E.
    apply bind_ok in E. destruct E as (o & w1 & H1 & E). destruct o.
    apply _create_partition_ran in H1.
    cbn [flat_map]. apply (ran_app H1 (IH w1 E)).
Qed.

Lemma _create_raid_array_ran (disks : list string) (level : Z)
    (device_name : string) (w w' : World) :
  _create_raid_array env disks level device_name w = (Ok tt, w') ->
  ran [create_call disks level device_name] w w'.
Proof.
  unfold _create_raid_array. cbv zeta. intros E.
  apply bind_ok in E. destruct E as (o & w1 & H1 & E).
  inversion E. subst w1.
  apply run_command_ran_eq in H1; [exact H1 | reflexivity].
Qed.

Lemma _update_system_ok (w w' : World) :
  _update_system env w = (Ok tt, w') ->
  fstab w' = fstab w
  /\ fstab_backup w' = fstab_backup w
  /\ mdadm_conf w'
     = stdout (tool env (set_mdadm_conf "" w) ["mdadm"; "--detail"; "--scan"])
  /\ trace w'
     = (trace w ++ [RunTo ["mdadm"; "--detail"; "--scan"] "/etc/mdadm/mdadm.conf";
                    Run ["update-initramfs"; "-u"]])%list.
Proof.
  unfold _update_system. intros E.
  apply bind_ok in E. destruct E as (o1 & w1 & H1 & E).
  apply bind_ok in E. destruct E as (o2 & w2 & H2 & E).
  inversion E. subst w2. clear E.
  apply run_command_ran_eq in H2; [|reflexivity].
  destruct H2 as [(F & B & C) T].
  unfold run_command_to_mdadm_conf in H1.
  destruct (Z.eqb _ 0); inversion H1. subst w1. clear H1.
  rewrite F, B, C, T. simpl. rewrite <- app_assoc. auto.
Qed.

(** A [setup_raid] that returns [True]: its checks have changed
    nothing, every step after them has succeeded, and the table update
    started after the mount. *)
Lemma setup_raid_ok (disks : list string) (level : Z)
    (device_name mount_point : string) (w w' : World) :
  setup_raid env disks level device_name mount_point w = (Ok true, w') ->
  exists need checks,
    let wq := logs (checks
                    ++ flat_map partition_calls disks
                    ++ [create_call disks level device_name;
                        Run ["mkfs.ext4"; device_name];
                        Makedirs mount_point;
                        Run ["mount"; device_name; mount_point]]) w in
    let scan := tool env
                  (set_mdadm_conf "" (updated env device_name mount_point wq))
                  ["mdadm"; "--detail"; "--scan"] in
    In (level, need) min_disks
    /\ (need <= Z.of_nat (length disks))%Z
    /\ Forall (fun e => mutating e = false) checks
    /\ uuid_known env device_name wq
    /\ backup_succeeds env device_name wq
    /\ trace w'
       = (trace w ++ checks
          ++ flat_map partition_calls disks
          ++ [create_call disks level device_name;
              Run ["mkfs.ext4"; device_name];
              Makedirs mount_point;
              Run ["mount"; device_name; mount_point]]
          ++ update_fstab_calls device_name
          ++ [RunTo ["mdadm"; "--detail"; "--scan"] "/etc/mdadm/mdadm.conf";
              Run ["update-initramfs"; "-u"]])%list
    /\ fstab w' = fstab w ++ new_entry env device_name mount_point wq
    /\ fstab_backup w' = Some (fstab w)
    /\ mdadm_conf w' = stdout scan
    /\ returncode scan = 0%Z.
Proof.
  unfold setup_raid, try_except. intros H.
  match type of H with
  | (let (_, _) := ?m w in _) = _ => destruct (m w) as [[b|e] wb] eqn:E
  end; [|discriminate H].
  inversion H. subst b wb. clear H.
  apply bind_ok in E. destruct E as (go1 & w1 & H1 & E).
  pose proof (confirm_quiet "계속하시겠습니까?" w) as Q1.
  rewrite H1 in Q1. simpl in Q1.
  destruct go1; [cbn [negb] in E | discriminate E].
  apply bind_ok in E. destruct E as (go2 & w2 & H2 & E).
  pose proof (health_checks_quiet disks w1) as Q2.
  rewrite H2 in Q2. simpl in Q2.
  destruct go2; [cbn [negb] in E | discriminate E].
  apply bind_ok in E. destruct E as (need & w2' & H3 & E).
  unfold lift in H3.
  assert (Hneed : getitem min_disks level = Ok need) by congruence.
  assert (Hw : w2' = w2) by congruence. subst w2'. clear H3.
  destruct (Z.ltb_spec (Z.of_nat (length disks)) need) as [Hlt|Hge];
    [discriminate E|].
  apply bind_ok in E. destruct E as (same & w3 & H4 & E).
  pose proof (_check_disk_sizes_quiet disks w2) as Q3.
  rewrite H4 in Q3. simpl in Q3.
  apply bind_ok in E. destruct E as (go3 & w4 & H5 & E).
  assert (Q4 : quiet w3 w4).
  { destruct same; cbn [negb] in H5.
    - inversion H5. reflexivity.
    - pose proof (confirm_quiet
        "[yellow]경고: 선택한 디스크들의 용량이 다릅니다. 계속하시겠습니까?[/yellow]" w3)
        as Q. now rewrite H5 in Q. }
  destruct go3; [cbn [negb] in E | discriminate E].
  assert (Q : quiet w w4).
  { etransitivity; [exact Q1|]. etransitivity; [exact Q2|].
    etransitivity; [exact Q3 | exact Q4]. }
  destruct Q as (checks & Rc & Hchecks).
  apply bind_ok in E. destruct E as (o5 & w5 & H6 & E). destruct o5.
  apply partitions_ran in H6.
  apply bind_ok in E. destruct E as (o6 & w6 & H7 & E). destruct o6.
  apply _create_raid_array_ran in H7.
  apply bind_ok in E. destruct E as (o7 & w7 & H8 & E).
  unfold _create_filesystem in H8.
  apply bind_ok in H8. destruct H8 as (o & wx & H8 & X). inversion X. subst wx.
  apply run_command_ran_eq in H8; [|reflexivity]. clear X.
  apply bind_ok in E. destruct E as (o8 & w8 & H9 & E).
  unfold _mount_raid in H9.
  apply bind_ok in H9. destruct H9 as (oa & wa & H9a & H9).
  apply bind_ok in H9. destruct H9 as (ob & wb & H9b & X). inversion X.
  subst wb. clear X.
  apply makedirs_ran_eq in H9a.
  apply run_command_ran_eq in H9b; [|reflexivity].
  pose proof (ran_app (ran_app (ran_app (ran_app (ran_app Rc H6) H7) H8) H9a) H9b)
    as R.
  apply ran_logs in R. cbn [app] in R. rewrite <- !app_assoc in R.
  cbn [app] in R. subst w8.
  apply bind_ok in E. destruct E as (o9 & w9 & H10 & E).
  apply _update_fstab_ok in H10. destruct H10 as (U & Bk & ->).
  apply bind_ok in E. destruct E as (o10 & w10 & H11 & E). destruct o10.
  inversion E. subst w10. clear E.
  match type of H11 with
  | _update_system env ?w9 = _ =>
      assert (S : returncode (tool env (set_mdadm_conf "" w9)
                                ["mdadm"; "--detail"; "--scan"]) = 0%Z)
  end.
  { unfold _update_system in H11.
    apply bind_ok in H11. destruct H11 as (oS & wS & X & _).
    unfold run_command_to_mdadm_conf in X.
    match type of X with
    | context [Z.eqb (returncode ?c) 0] =>
        destruct (Z.eqb_spec (returncode c) 0); [assumption | discriminate X]
    end. }
  apply _update_system_ok in H11. destruct H11 as (F11 & B11 & C11 & T11).
  apply getitem_in in Hneed.
  exists need, checks. cbv zeta.
  split; [exact Hneed|]. split; [lia|]. split; [exact Hchecks|].
  split; [exact U|]. split; [exact Bk|].
  split; [|split; [|split; [|split]]].
  - rewrite T11. cbn [updated logs trace]. rewrite <- !app_assoc.
    reflexivity.
  - rewrite F11. reflexivity.
  - rewrite B11. reflexivity.
  - exact C11.
  - exact S.
Qed.

End Setup.

(** X15. With a level that is no key of the table of minimum disk
    counts, [setup_raid] returns [False] (the missing key is caught), and
    all it has done is to ask: no file has changed and every call was a
    question to the user or a SMART health query. *)
Theorem setup_raid_unsupported_level (env : Env) (disks : list string)
    (level : Z) (device_name mount_point : string) (w : World) :
  ~ In level (map fst min_disks) ->
  fst (setup_raid env disks level device_name mount_point w) = Ok false
  /\ only_asked w (snd (setup_raid env disks level device_name mount_point w)).
Proof.
  intros Hno. apply getitem_missing in Hno.
  assert (G : exists w',
             setup_raid env disks level device_name mount_point w
             = (Ok false, w') /\ only_asked w w').
  { unfold setup_raid, try_except. unfold bind at 1.
    pose proof (confirm_only_asked env "계속하시겠습니까?" w) as Hc.
    destruct (confirm env "계속하시겠습니까?" w) as [[go|e] w1] eqn:Ec;
      [|discriminate Ec].
    simpl in Hc. destruct go; cbn [negb].
    - unfold bind at 1.
      pose proof (health_checks_only_asked env disks w1) as Hh.
      destruct (health_checks_total env disks w1) as [ok Hok].
      destruct (health_checks env disks w1) as [r w2].
      simpl in Hh, Hok. subst r.
      assert (Hw : only_asked w w2) by (etransitivity; eassumption).
      exists w2. destruct ok; cbn [negb].
      + unfold bind, lift. rewrite Hno. now split.
      + now split.
    - exists w1. now split. }
  destruct G as (w' & -> & G). now split.
Qed.

Lemma setup_raid_unsupported_level_witness :
  fst (setup_raid (Scenario.env true) ["/dev/sda"; "/dev/sdb"] 10
         "/dev/md0" "/mnt/raid" Scenario.fresh) = Ok false
  /\ only_asked Scenario.fresh
       (snd (setup_raid (Scenario.env true) ["/dev/sda"; "/dev/sdb"] 10
               "/dev/md0" "/mnt/raid" Scenario.fresh)).
Proof.
  apply (@setup_raid_unsupported_level (Scenario.env true)
           ["/dev/sda"; "/dev/sdb"] 10).
  simpl. intros [H|[H|[H|[H|[]]]]]; discriminate H.
Defined.

(** X16. [_check_disk_sizes] only reads: it asks for the capacity of the
    disks in their order and stops at the first query that fails (the
    tool exits with an error or prints no number).  When no query fails
    its calls are the queries of all the disks; when the query of a disk
    is the first that fails it returns [False] and its calls are the
    queries up to that disk, and no more.  No file changes. *)
Theorem check_disk_sizes_queries (env : Env) (disks : list string) (w : World) :
  let r := _check_disk_sizes env disks w in
  ((forall i, i < length disks -> size_of env disks w i <> None) ->
   snd r = logs (map blockdev_call disks) w)
  /\ (forall i,
        i < length disks ->
        size_of env disks w i = None ->
        (forall j, j < i -> size_of env disks w j <> None) ->
        r = (Ok false, logs (map blockdev_call (firstn (S i) disks)) w))
  /\ (fst r = Ok true -> snd r = logs (map blockdev_call disks) w).
Proof.
  cbv zeta. rewrite _check_disk_sizes_run.
  destruct (read_sizes_outcome env disks w)
    as [(sizes & Hr & Hl & Hs) | (k & e & Hk & Hr & Hn & Hb)]; rewrite Hr.
  - split; [reflexivity|]. split; [|reflexivity].
    intros i Hi Hnone _. rewrite (Hs i Hi) in Hnone. discriminate Hnone.
  - split; [|split].
    + intros H. elim (H k Hk Hn).
    + intros i Hi Hnone Hbefore.
      assert (E : i = k).
      { destruct (Nat.lt_trichotomy i k) as [L|[E|L]]; [|exact E|].
        - elim (Hb i L Hnone).
        - elim (Hbefore k L Hn). }
      now subst i.
    + discriminate.
Qed.

(** The queries stop at the disk that prints no number. *)
Example check_disk_sizes_stops :
  _check_disk_sizes Scenario.named_sizes ["1000"; "x"; "1000"] Scenario.fresh
  = (Ok false, logs [blockdev_call "1000"; blockdev_call "x"] Scenario.fresh).
Proof. reflexivity. Qed.

(** X17. A [setup_raid] that returns [True] was given a level of the
    table and at least as many disks as the table asks for.  After its
    checks, which change nothing, it has made exactly these calls, in
    this order: the three partitioning calls for every disk, in the order
    of the disks; the creation of the array from the first partition of
    every disk, in the same order; the formatting; the creation of the
    mount point and the mount; the three calls of the table update; the
    array scan into the configuration file and the refresh of the boot
    image.  The table has one entry more at its end: the entry of the
    UUID the query of the update printed, for the given mount point,
    with the options of the level the level query answered; the backup
    is the table as it was; and the configuration file holds what the
    scan printed when it was run, after the table update, on the emptied
    file, and that scan succeeded. *)
Theorem setup_raid_success (env : Env) (disks : list string) (level : Z)
    (device_name mount_point : string) (w w' : World) :
  setup_raid env disks level device_name mount_point w = (Ok true, w') ->
  exists need checks,
    let wq := logs (checks
                    ++ flat_map partition_calls disks
                    ++ [create_call disks level device_name;
                        Run ["mkfs.ext4"; device_name];
                        Makedirs mount_point;
                        Run ["mount"; device_name; mount_point]]) w in
    let scan := tool env
                  (set_mdadm_conf "" (updated env device_name mount_point wq))
                  ["mdadm"; "--detail"; "--scan"] in
    In (level, need) min_disks
    /\ (need <= Z.of_nat (length disks))%Z
    /\ Forall (fun e => mutating e = false) checks
    /\ uuid_known env device_name wq
    /\ trace w'
       = (trace w ++ checks
          ++ flat_map partition_calls disks
          ++ [create_call disks level device_name;
              Run ["mkfs.ext4"; device_name];
              Makedirs mount_point;
              Run ["mount"; device_name; mount_point]]
          ++ update_fstab_calls device_name
          ++ [RunTo ["mdadm"; "--detail"; "--scan"] "/etc/mdadm/mdadm.conf";
              Run ["update-initramfs"; "-u"]])%list
    /\ fstab w' = fstab w ++ new_entry env device_name mount_point wq
    /\ fstab_backup w' = Some (fstab w)
    /\ mdadm_conf w' = stdout scan
    /\ returncode scan = 0%Z.
Proof.
  intros H. apply setup_raid_ok in H.
  destruct H as (need & checks & Hin & Hle & Hq & U & _ & S & F & B & C & T).
  exists need, checks. cbv zeta. repeat split; assumption.
Qed.

Lemma setup_raid_success_witness :
  let w' := snd (setup_raid (Scenario.env true) ["/dev/sda"; "/dev/sdb"] 1
                   "/dev/md0" "/mnt/raid" Scenario.fresh) in
  fstab w' = fstab_entry "abcd-1234" "/mnt/raid" 1
  /\ fstab_backup w' = Some ""
  /\ mdadm_conf w' = Scenario.detail.
Proof.
  intros w'.
  destruct (@setup_raid_success (Scenario.env true) ["/dev/sda"; "/dev/sdb"] 1
              "/dev/md0" "/mnt/raid" Scenario.fresh w' eq_refl)
    as (need & checks & _ & _ & _ & _ & _ & F & B & C & _).
  split; [exact F|]. split; [exact B | exact C].
Defined.

(** The members of the array are the first partitions of the disks, in
    the order the disks were given. *)
Example create_call_members :
  create_call ["/dev/sdb"; "/dev/sda"] 1 "/dev/md0"
  = Run ["mdadm"; "--create"; "--verbose"; "/dev/md0"; "--level"; "1";
         "--raid-devices"; "2"; "/dev/sdb1"; "/dev/sda1"].
Proof. reflexivity. Qed.



(** X19. A [change_mount_point] that returns [True] has made these
    calls, in this order: the umount, the creation of the new mount
    point, the mount on it, and the three calls of the table update; the
    backup is the table as it was and the configuration file is
    untouched. *)
Theorem change_mount_point_success (env : Env)
    (device_name new_mount_point : string) (w w' : World) :
  change_mount_point env device_name new_mount_point w = (Ok true, w') ->
  trace w'
  = (trace w
     ++ [Run ["umount"; device_name];
         Makedirs new_mount_point;
         Run ["mount"; device_name; new_mount_point]]
     ++ update_fstab_calls device_name)%list
  /\ fstab_backup w' = Some (fstab w)
  /\ mdadm_conf w' = mdadm_conf w.
Proof.
  unfold change_mount_point, try_except. intros H.
  match type of H with
  | (let (_, _) := ?m w in _) = _ => destruct (m w) as [[b|e] wb] eqn:E
  end; [|discriminate H].
  inversion H. subst b wb. clear H.
  apply bind_ok in E. destruct E as (o1 & w1 & H1 & E).
  apply bind_ok in E. destruct E as (o2 & w2 & H2 & E).
  apply bind_ok in E. destruct E as (o3 & w3 & H3 & E).
  apply bind_ok in E. destruct E as (o4 & w4 & H4 & E).
  inversion E. subst w4. clear E. destruct o4.
  apply run_command_ran_eq in H1; [|reflexivity].
  apply makedirs_ran_eq in H2.
  apply run_command_ran_eq in H3; [|reflexivity].
  pose proof (ran_app (ran_app H1 H2) H3) as [(F & B & C) T].
  apply _update_fstab_ok in H4. destruct H4 as (_ & _ & ->).
  cbn [updated trace fstab_backup mdadm_conf].
  rewrite T, F, C. rewrite <- !app_assoc. auto.
Qed.

Lemma change_mount_point_success_witness :
  let w' := snd (change_mount_point (Scenario.env true) "/dev/md0" "/mnt/new"
                   Scenario.mounted) in
  trace w'
  = (trace Scenario.mounted
     ++ [Run ["umount"; "/dev/md0"];
         Makedirs "/mnt/new";
         Run ["mount"; "/dev/md0"; "/mnt/new"]]
     ++ update_fstab_calls "/dev/md0")%list
  /\ fstab_backup w' = Some (fstab Scenario.mounted)
  /\ mdadm_conf w' = mdadm_conf Scenario.mounted.
Proof.
  intros w'.
  apply (@change_mount_point_success (Scenario.env true) "/dev/md0" "/mnt/new"
           Scenario.mounted w').
  reflexivity.
Defined.


Example update_system_scan_fails :
  let tools := fun (_ : World) (argv : list string) => mkCompleted 1 "" in
  let env := mkEnv tools (fun _ _ => true) (fun _ _ => true) Scenario.decimal in
  let w := mkWorld "" None "ARRAY /dev/md0 UUID=0123" [] in
  mdadm_conf (snd (_update_system env w)) = ""
  /\ trace (snd (_update_system env w))
     = [RunTo ["mdadm"; "--detail"; "--scan"] "/etc/mdadm/mdadm.conf"].
Proof. split; reflexivity. Qed.

(* ================================================================== *)
(** ** The lifecycle operations and the mount table *)
(* ================================================================== *)

Section Lifecycle.

Variable env : Env.




End Lifecycle.



